(** * fence: OAuth2 login and callback resources

    A shallow embedding of [fence/blueprints/login/base.py]: the login
    resource [DefaultOAuth2Login], the callback resource
    [DefaultOAuth2Callback], the helpers [prepare_login_log] and [_login],
    and the identity mapping [map_user_idp_info].

    Flask's ambient objects ([flask.session], [flask.g], [flask.redirect_url])
    are one explicit context record that every handler threads; exceptions
    are the left summand of the result, and the context reached when the
    exception is raised is kept, as Python keeps its mutations. *)

From stdpp Require Import base option strings list gmap fin_maps.
From Stdlib Require Import ZArith Ascii String.

Local Open Scope string_scope.
Local Open Scope list_scope.
Local Open Scope Z_scope.

(** ** Python values and truthiness *)

(** The values found in configuration entries, cookies and the payload a
    client returns from the code exchange. *)
Inductive pyval : Type :=
  | PyNone
  | PyBool (b : bool)
  | PyInt (n : Z)
  | PyStr (s : string).

#[global] Instance pyval_eq_dec : EqDecision pyval.
Proof. solve_decision. Defined.

(** Python's [bool(v)]. *)
Definition truthy (v : pyval) : bool :=
  match v with
  | PyNone => false
  | PyBool b => b
  | PyInt n => negb (n =? 0)
  | PyStr s => negb (String.eqb s "")
  end.

(** [d.get(k)] on a dict of values: Python's [None] when the key is
    missing. *)
Definition dict_get (d : gmap string pyval) (k : string) : pyval :=
  match d !! k with
  | Some v => v
  | None => PyNone
  end.

(** [d.get(k, dflt)]. *)
Definition dict_get_default (d : gmap string pyval) (k : string)
    (dflt : pyval) : pyval :=
  match d !! k with
  | Some v => v
  | None => dflt
  end.

(** Truthiness of an optional string ([None] and [""] are falsy). *)
Definition truthy_str (o : option string) : bool :=
  match o with
  | Some s => negb (String.eqb s "")
  | None => false
  end.

(** ** [str.lower], [str.upper] and [str.split("?")[0]] on ASCII text *)

Definition lower_ascii (c : ascii) : ascii :=
  let n := nat_of_ascii c in
  if (Nat.leb 65 n && Nat.leb n 90)%bool then ascii_of_nat (n + 32) else c.

Definition upper_ascii (c : ascii) : ascii :=
  let n := nat_of_ascii c in
  if (Nat.leb 97 n && Nat.leb n 122)%bool then ascii_of_nat (n - 32) else c.

Fixpoint lower (s : string) : string :=
  match s with
  | EmptyString => EmptyString
  | String c r => String (lower_ascii c) (lower r)
  end.

Fixpoint upper (s : string) : string :=
  match s with
  | EmptyString => EmptyString
  | String c r => String (upper_ascii c) (upper r)
  end.

(** [s.split("?")[0]]: the text before the first question mark, the whole
    string when there is none. *)
Fixpoint before_question (s : string) : string :=
  match s with
  | EmptyString => EmptyString
  | String c r => if Ascii.eqb c "?"%char then EmptyString
                  else String c (before_question r)
  end.

(** ** Configuration *)

(** [fence.config.config]: the entries this module reads.  [OPENID_CONNECT],
    [REGISTER_USERS_ON] and [BASE_URL] are indexed ([config[...]]) and so are
    fields; everything read with [config.get] lives in [cfg_entries]. *)
Record Config : Type := {
  OPENID_CONNECT : gmap string (gmap string pyval);
  REGISTER_USERS_ON : pyval;
  BASE_URL : string;
  DEV_LOGIN_COOKIE_NAME : option string;
  cfg_entries : gmap string pyval
}.

(** ** Requests, users, the Flask context *)

Record Request : Type := {
  args : list (string * string);      (* flask.request.args, a MultiDict *)
  cookies : gmap string string;       (* flask.request.cookies *)
  url : string                        (* flask.request.url *)
}.

(** [MultiDict.get]: the first value stored under the key. *)
Fixpoint args_get (k : string) (l : list (string * string)) : option string :=
  match l with
  | [] => None
  | (k', v) :: r => if String.eqb k' k then Some v else args_get k r
  end.

Record User : Type := {
  user_username : pyval;
  user_id : Z;
  additional_info : gmap string pyval
}.

Record AuditData : Type := {
  audit_username : pyval;
  audit_sub : Z;
  audit_idp : string;
  audit_fence_idp : option string;
  audit_shib_idp : option string;
  audit_client_id : option string
}.

Record Ctx : Type := {
  session : gmap string string;       (* flask.session *)
  g_user : option User;               (* flask.g.user *)
  g_audit_data : option AuditData;    (* flask.g.audit_data *)
  flask_redirect_url : option string  (* the attribute flask.redirect_url *)
}.

Definition set_session (k v : string) (c : Ctx) : Ctx :=
  {| session := <[k := v]> (session c); g_user := g_user c;
     g_audit_data := g_audit_data c;
     flask_redirect_url := flask_redirect_url c |}.

Definition set_audit_data (a : AuditData) (c : Ctx) : Ctx :=
  {| session := session c; g_user := g_user c; g_audit_data := Some a;
     flask_redirect_url := flask_redirect_url c |}.

Definition set_flask_redirect_url (r : option string) (c : Ctx) : Ctx :=
  {| session := session c; g_user := g_user c;
     g_audit_data := g_audit_data c; flask_redirect_url := r |}.

(** ** Responses, exceptions, effects *)

Inductive Response : Type :=
  | Redirect (location : string)                 (* flask.redirect(location) *)
  | Jsonify (body : list (string * pyval)).      (* flask.jsonify({...}) *)

Inductive Exn : Type :=
  | InvalidRedirect                      (* raised by validate_redirect *)
  | UserError (result : gmap string pyval)  (* raise UserError(result) *)
  | LoginUserError                       (* raised inside login_user *)
  | ClientError                          (* raised inside the OAuth2 client *)
  | AttributeError.                      (* flask.g.user is None *)

(** What a handler did, in program order: the calls to the collaborators
    and the writes to the session. *)
Inductive Event : Type :=
  | EvValidateRedirect (r : option string)
  | EvSessionSet (k v : string)
  | EvLoginUser (username : pyval) (idp : string) (email : pyval)
  | EvGetAuthUrl
  | EvGetUserId (code : option string).

#[global] Instance Event_eq_dec : EqDecision Event.
Proof. solve_decision. Defined.

(** The events that reach the identity provider's client. *)
Definition is_client_event (e : Event) : bool :=
  match e with
  | EvGetAuthUrl | EvGetUserId _ => true
  | _ => false
  end.

Record State : Type := {
  ctx : Ctx;
  trace : list Event
}.

(** The handler monad: a state transformer returning a value or an
    exception. *)
Definition M (A : Type) : Type := State -> (Exn + A) * State.

Definition ret {A} (a : A) : M A := fun s => (inr a, s).
Definition raise {A} (e : Exn) : M A := fun s => (inl e, s).
Definition bind {A B} (m : M A) (k : A -> M B) : M B :=
  fun s => match m s with
           | (inl e, s') => (inl e, s')
           | (inr a, s') => k a s'
           end.

Notation "'let*' x := m 'in' k" := (bind m (fun x => k))
  (at level 10, x name, m at level 100, k at level 200).

Definition get_ctx : M Ctx := fun s => (inr (ctx s), s).
Definition modify_ctx (f : Ctx -> Ctx) : M unit :=
  fun s => (inr tt, {| ctx := f (ctx s); trace := trace s |}).
Definition emit (e : Event) : M unit :=
  fun s => (inr tt, {| ctx := ctx s; trace := trace s ++ [e] |}).
Definition put_ctx (c : Ctx) : M unit := modify_ctx (fun _ => c).

(** ** Collaborators *)

(** The code this module imports and calls: the configuration, the redirect
    validator, [fence.auth.login_user], Flask's [url_for] at the one endpoint
    asked for, and the two [urllib.parse] functions of the error branch.
    [login_user] works on the Flask context (it sets [flask.g.user]) and
    raises when it returns [None]. *)
Class Env : Type := {
  config : Config;
  validate_redirect : option string -> bool;
  login_user : pyval -> string -> pyval -> Ctx -> option Ctx;
  url_for_register_user : string;
  (* parse_qsl(urlparse(u).query, keep_blank_values=True) *)
  parse_qsl_query : string -> list (string * string);
  urlencode : list (string * string) -> string
}.

(** [Oauth2ClientBase]: the two methods the resources call; [None] is a
    raised exception. *)
Record Client : Type := {
  get_auth_url : option string;
  get_user_id : option string -> option (gmap string pyval)
}.

Record DefaultOAuth2Login : Type := {
  login_idp_name : string;
  login_client : Client
}.

Record DefaultOAuth2Callback : Type := {
  cb_idp_name : string;
  cb_client : Client;
  username_field : string;
  email_field : string
}.

(** [dict(pairs).get(k)]: building the dict keeps the last value of a
    repeated key. *)
Fixpoint dict_of_pairs_get (k : string) (l : list (string * string))
    : option string :=
  match l with
  | [] => None
  | (k', v) :: r =>
      match dict_of_pairs_get k r with
      | Some w => Some w
      | None => if String.eqb k' k then Some v else None
      end
  end.

(** [flask.request.cookies.get(name, dflt)], where [name] itself comes from
    [config.get] and may be [None], which is no cookie's name. *)
Definition cookies_get (ck : gmap string string) (name : option string)
    (dflt : pyval) : pyval :=
  match name with
  | Some n => match ck !! n with
              | Some v => PyStr v
              | None => dflt
              end
  | None => dflt
  end.

Section Handlers.
Context `{E : Env}.

(** *** The calls to the collaborators, logged *)

Definition call_validate_redirect (r : option string) : M unit :=
  let* _ := emit (EvValidateRedirect r) in
  if validate_redirect r then ret tt else raise InvalidRedirect.

Definition call_login_user (username : pyval) (idp_name : string)
    (email : pyval) : M unit :=
  let* _ := emit (EvLoginUser username idp_name email) in
  let* c := get_ctx in
  match login_user username idp_name email c with
  | Some c' => put_ctx c'
  | None => raise LoginUserError
  end.

Definition call_get_auth_url (cl : Client) : M string :=
  let* _ := emit EvGetAuthUrl in
  match get_auth_url cl with
  | Some u => ret u
  | None => raise ClientError
  end.

Definition call_get_user_id (cl : Client) (code : option string)
    : M (gmap string pyval) :=
  let* _ := emit (EvGetUserId code) in
  match get_user_id cl code with
  | Some r => ret r
  | None => raise ClientError
  end.

Definition session_set (k v : string) : M unit :=
  let* _ := emit (EvSessionSet k v) in
  modify_ctx (set_session k v).

(** [flask.g.user], an [AttributeError] when it is [None]. *)
Definition the_user : M User :=
  let* c := get_ctx in
  match g_user c with
  | Some u => ret u
  | None => raise AttributeError
  end.

(** *** [prepare_login_log] *)

Definition prepare_login_log (idp_name : string) : M unit :=
  let* u := the_user in
  let* c := get_ctx in
  modify_ctx (set_audit_data
    {| audit_username := user_username u;
       audit_sub := user_id u;
       audit_idp := idp_name;
       audit_fence_idp := session c !! "fence_idp";
       audit_shib_idp := session c !! "shib_idp";
       audit_client_id := session c !! "client_id" |}).

(** *** [_login] *)

(** The response once [login_user] has returned: the three [return]s of
    [_login], in the order the code tests them. *)
Definition login_response (username : pyval) : M Response :=
  let* registering :=
    (if truthy (REGISTER_USERS_ON config) then
       let* u := the_user in
       ret (negb (truthy (dict_get (additional_info u) "registration_info")))
     else ret false) in
  if registering : bool then
    ret (Redirect (BASE_URL config +:+ url_for_register_user))
  else
    let* c := get_ctx in
    if truthy_str (session c !! "redirect") then
      match session c !! "redirect" with
      | Some r => ret (Redirect r)
      | None => ret (Redirect "")
      end
    else ret (Jsonify [("username", username)]).

Definition _login (username : pyval) (idp_name : string) (email : pyval)
    : M Response :=
  let* _ := call_login_user username idp_name email in
  login_response username.

(** *** [DefaultOAuth2Login.get] *)

(** The three configuration reads at the head of [get]. *)
Definition provider_config (idp_name : string) : gmap string pyval :=
  match OPENID_CONNECT config !! lower idp_name with
  | Some d => d
  | None => ∅
  end.

Definition mock_login (idp_name : string) : pyval :=
  dict_get_default (provider_config idp_name) "mock" (PyBool false).

Definition legacy_mock_login (idp_name : string) : pyval :=
  dict_get_default (cfg_entries config)
    ("MOCK_" +:+ upper idp_name +:+ "_AUTH") (PyBool false).

Definition mock_default_user (idp_name : string) : pyval :=
  dict_get_default (provider_config idp_name) "mock_default_user"
    (PyStr "test@example.com").

(** [mock_login or legacy_mock_login], as the [if] reads it. *)
Definition mock_enabled (idp_name : string) : bool :=
  truthy (mock_login idp_name) || truthy (legacy_mock_login idp_name).

Definition mock_username (idp_name : string) (rq : Request) : pyval :=
  cookies_get (cookies rq) (DEV_LOGIN_COOKIE_NAME config)
    (mock_default_user idp_name).

Definition DefaultOAuth2Login_get (self : DefaultOAuth2Login) (rq : Request)
    : M Response :=
  let redirect_url := args_get "redirect" (args rq) in
  let* _ := call_validate_redirect redirect_url in
  let* _ := modify_ctx (set_flask_redirect_url redirect_url) in
  let* _ := (if truthy_str redirect_url then
               match redirect_url with
               | Some r => session_set "redirect" r
               | None => ret tt
               end
             else ret tt) in
  if mock_enabled (login_idp_name self) then
    let username := mock_username (login_idp_name self) rq in
    let* resp := _login username (login_idp_name self) PyNone in
    let* _ := prepare_login_log (login_idp_name self) in
    ret resp
  else
    let* u := call_get_auth_url (login_client self) in
    ret (Redirect u).

(** *** [DefaultOAuth2Callback.post_login] and [DefaultOAuth2Callback.get] *)

Definition post_login (self : DefaultOAuth2Callback) (user : option User)
    (token_result : gmap string pyval) : M unit :=
  prepare_login_log (cb_idp_name self).

(** The error branch: the location the caller is sent back to. *)
Definition error_redirect_location (rq : Request) (c : Ctx) : string :=
  let received_query_params := parse_qsl_query (url rq) in
  let redirect_uri :=
    if truthy_str (session c !! "redirect") then
      match session c !! "redirect" with Some r => r | None => "" end
    else BASE_URL config in
  let redirect_query_params := parse_qsl_query redirect_uri in
  let redirect_uri' :=
    if truthy_str (dict_of_pairs_get "redirect_uri" redirect_query_params) then
      match dict_of_pairs_get "redirect_uri" redirect_query_params with
      | Some r => r
      | None => ""
      end
    else redirect_uri in
  let final_query_params :=
    urlencode (redirect_query_params ++ received_query_params) in
  before_question redirect_uri' +:+ "?" +:+ final_query_params.

Definition DefaultOAuth2Callback_get (self : DefaultOAuth2Callback)
    (rq : Request) : M Response :=
  if truthy_str (args_get "error" (args rq)) then
    let* c := get_ctx in
    ret (Redirect (error_redirect_location rq c))
  else
    let code := args_get "code" (args rq) in
    let* result := call_get_user_id (cb_client self) code in
    let username := dict_get result (username_field self) in
    let email := dict_get result (email_field self) in
    if truthy username then
      let* resp := _login username (cb_idp_name self) email in
      let* c := get_ctx in
      let* _ := post_login self (g_user c) result in
      ret resp
    else raise (UserError result).

End Handlers.

(** ** Storage: [IdentityProvider], [IdPToUser] and the SQLAlchemy session *)

Record IdentityProvider : Type := {
  idp_id : Z;
  idp_name : string;
  idp_description : option string
}.

Record IdPToUser : Type := {
  sub : string;
  fk_to_idp : Z;
  fk_to_User : Z;
  extra_info : option (gmap string pyval)
}.

(** Modelled from the spec: the table declarations of [fence.models]
    ([IdentityProvider], [IdPToUser]) are not part of this module.  The spec
    names two uniqueness constraints the store may enforce, on
    [IdentityProvider.name] and on [IdPToUser.sub]; each is a flag here, so
    that every result below is stated for a store with and without it. *)
Record Schema : Type := {
  provider_name_unique : bool;
  sub_unique : bool
}.

(** The committed rows, in insertion order, and the next value of the
    [IdentityProvider.id] sequence. *)
Record Db : Type := {
  providers : list IdentityProvider;
  idp_to_users : list IdPToUser;
  next_idp_id : Z
}.

Inductive Commit : Type :=
  | Committed
  | IntegrityError.

(** [query(IdentityProvider).filter(IdentityProvider.name == provider).first()] *)
Fixpoint first_provider (provider : string) (l : list IdentityProvider)
    : option IdentityProvider :=
  match l with
  | [] => None
  | p :: r => if String.eqb (idp_name p) provider then Some p
              else first_provider provider r
  end.

Definition has_provider (provider : string) (l : list IdentityProvider) : bool :=
  existsb (fun p => String.eqb (idp_name p) provider) l.

Definition has_sub (s : string) (l : list IdPToUser) : bool :=
  existsb (fun r => String.eqb (sub r) s) l.

(** The number of binding rows whose [sub] is [s]. *)
Definition count_sub (s : string) (l : list IdPToUser) : nat :=
  List.length (List.filter (fun r => String.eqb (sub r) s) l).

(** [add(IdentityProvider(name=..., description=...))] then [commit()]: the
    row gets the next id; a store with the constraint refuses a second row of
    the same name and is left as it was. *)
Definition add_provider (sc : Schema) (name : string)
    (description : option string) (db : Db)
    : Commit * option IdentityProvider * Db :=
  if (provider_name_unique sc && has_provider name (providers db))%bool then
    (IntegrityError, None, db)
  else
    let p := {| idp_id := next_idp_id db; idp_name := name;
                idp_description := description |} in
    (Committed, Some p,
     {| providers := providers db ++ [p];
        idp_to_users := idp_to_users db;
        next_idp_id := next_idp_id db + 1 |}).

(** [add(user_to_idp)] then [commit()]. *)
Definition add_idp_to_user (sc : Schema) (row : IdPToUser) (db : Db)
    : Commit * Db :=
  if (sub_unique sc && has_sub (sub row) (idp_to_users db))%bool then
    (IntegrityError, db)
  else
    (Committed,
     {| providers := providers db;
        idp_to_users := idp_to_users db ++ [row];
        next_idp_id := next_idp_id db |}).

(** ["{}_{}".format(provider, idp_sub)] *)
Definition composite_sub (provider idp_sub : string) : string :=
  provider +:+ "_" +:+ idp_sub.

(** The first half of [map_user_idp_info]: the provider row, found or
    created and committed. *)
Definition get_or_create_provider (sc : Schema) (provider : string) (db : Db)
    : Commit * option IdentityProvider * Db :=
  match first_provider provider (providers db) with
  | Some idp => (Committed, Some idp, db)
  | None => add_provider sc provider (Some "IdP from foreign Passport") db
  end.

(** [DefaultOAuth2Callback.map_user_idp_info]; [current_session] is the
    store it is handed and the store it leaves. *)
Definition map_user_idp_info (sc : Schema) (user : User) (idp_sub : string)
    (provider : string) (current_session : Db)
    (extra : option (gmap string pyval)) : Commit * Db :=
  match get_or_create_provider sc provider current_session with
  | (Committed, Some idp, db1) =>
      let user_to_idp :=
        {| sub := composite_sub provider idp_sub;
           fk_to_idp := idp_id idp;
           fk_to_User := user_id user;
           extra_info := extra |} in
      add_idp_to_user sc user_to_idp db1
  | (_, _, db1) => (IntegrityError, db1)
  end.

(** ** An executable model of the [urllib.parse] calls

    [urlparse(u).query], [parse_qsl(q, keep_blank_values=True)] and
    [urlencode(pairs)] on byte strings (text is taken as its UTF-8 bytes,
    and a URL as free of the whitespace [urlsplit] strips).  The handlers
    take these functions from [Env]; this instance lets them run on concrete
    requests. *)
Module Urllib.

(** [s.split(c, 1)]: the text before the first [c], and the text after it
    when [c] occurs. *)
Fixpoint split_first (c : ascii) (s : string) : string * option string :=
  match s with
  | EmptyString => (EmptyString, None)
  | String a r =>
      if Ascii.eqb a c then (EmptyString, Some r)
      else let '(h, t) := split_first c r in (String a h, t)
  end.

(** [s.split(c)] *)
Fixpoint split_on (c : ascii) (s : string) : list string :=
  match s with
  | EmptyString => [EmptyString]
  | String a r =>
      if Ascii.eqb a c then EmptyString :: split_on c r
      else match split_on c r with
           | h :: t => String a h :: t
           | [] => [String a EmptyString]
           end
  end.

(** [urlparse(u).query]: what lies between the first question mark and the
    fragment. *)
Definition query (u : string) : string :=
  match snd (split_first "?" (fst (split_first "#" u))) with
  | Some q => q
  | None => EmptyString
  end.

Definition hex_val (c : ascii) : option nat :=
  let n := nat_of_ascii c in
  if (Nat.leb 48 n && Nat.leb n 57)%bool then Some (n - 48)%nat
  else if (Nat.leb 65 n && Nat.leb n 70)%bool then Some (n - 55)%nat
  else if (Nat.leb 97 n && Nat.leb n 102)%bool then Some (n - 87)%nat
  else None.

Definition hex_digit (n : nat) : ascii :=
  if Nat.ltb n 10 then ascii_of_nat (48 + n) else ascii_of_nat (55 + n).

(** [unquote] after [replace('+', ' ')]: a plus sign is a space, [%XX] is
    the byte it names, and a percent sign that starts no escape stays. *)
Fixpoint unquote_plus (s : string) : string :=
  match s with
  | EmptyString => EmptyString
  | String c r =>
      if Ascii.eqb c "+" then String " " (unquote_plus r)
      else if Ascii.eqb c "%" then
        match r with
        | String h (String l r') =>
            match hex_val h, hex_val l with
            | Some a, Some b =>
                String (ascii_of_nat (16 * a + b)) (unquote_plus r')
            | _, _ => String c (unquote_plus r)
            end
        | _ => String c (unquote_plus r)
        end
      else String c (unquote_plus r)
  end.

(** One [name=value] piece of the query, blank values kept. *)
Definition parse_pair (name_value : string) : string * string :=
  match split_first "=" name_value with
  | (n, Some v) => (unquote_plus n, unquote_plus v)
  | (n, None) => (unquote_plus n, EmptyString)
  end.

(** [parse_qsl(qs, keep_blank_values=True)]: empty pieces are skipped. *)
Definition parse_qsl (qs : string) : list (string * string) :=
  List.map parse_pair
    (List.filter (fun nv => negb (String.eqb nv EmptyString)) (split_on "&" qs)).

(** The characters [quote] never escapes. *)
Definition always_safe (c : ascii) : bool :=
  let n := nat_of_ascii c in
  (Nat.leb 48 n && Nat.leb n 57) || (Nat.leb 65 n && Nat.leb n 90)
  || (Nat.leb 97 n && Nat.leb n 122)
  || Ascii.eqb c "_" || Ascii.eqb c "." || Ascii.eqb c "-" || Ascii.eqb c "~".

(** [quote_plus] *)
Fixpoint quote_plus (s : string) : string :=
  match s with
  | EmptyString => EmptyString
  | String c r =>
      if always_safe c then String c (quote_plus r)
      else if Ascii.eqb c " " then String "+" (quote_plus r)
      else
        let n := nat_of_ascii c in
        String "%" (String (hex_digit (n / 16)) (String (hex_digit (n mod 16))
          (quote_plus r)))
  end.

Fixpoint join (sep : string) (l : list string) : string :=
  match l with
  | [] => EmptyString
  | [x] => x
  | x :: r => x +:+ sep +:+ join sep r
  end.

(** [urlencode(pairs)] on a list of pairs of strings. *)
Definition urlencode (l : list (string * string)) : string :=
  join "&" (List.map (fun kv => quote_plus (fst kv) +:+ "=" +:+ quote_plus (snd kv)) l).

End Urllib.

(** ** The specification's reading of the login entry point *)

Section LoginSpec.
Context `{E : Env}.

(** The per-provider flag: the [mock] entry of the provider's block of
    [OPENID_CONNECT], when both exist and the entry is true. *)
Definition spec_provider_mock_flag (idp_name : string) : bool :=
  match OPENID_CONNECT config !! lower idp_name with
  | Some block => match block !! "mock" with
                  | Some v => truthy v
                  | None => false
                  end
  | None => false
  end.

(** The legacy flag [MOCK_<IDP>_AUTH]. *)
Definition spec_legacy_mock_flag (idp_name : string) : bool :=
  match cfg_entries config !! ("MOCK_" +:+ upper idp_name +:+ "_AUTH") with
  | Some v => truthy v
  | None => false
  end.

(** The development cookie of the request, when a name is configured for
    it and the request carries it. *)
Definition dev_cookie (rq : Request) : option string :=
  match DEV_LOGIN_COOKIE_NAME config with
  | Some n => cookies rq !! n
  | None => None
  end.

(** The mock default user the configuration names for the provider: the
    [mock_default_user] entry of the provider's block of [OPENID_CONNECT],
    when the block and the entry exist. *)
Definition spec_configured_default_user (idp_name : string) : option pyval :=
  match OPENID_CONNECT config !! lower idp_name with
  | Some block => block !! "mock_default_user"
  | None => None
  end.

(** The synthetic username: the cookie's value when the request carries the
    cookie, else the configured mock default user, else, when none is
    configured, [test@example.com]. *)
Definition spec_mock_username (idp_name : string) (rq : Request) : pyval :=
  match dev_cookie rq with
  | Some v => PyStr v
  | None =>
      match spec_configured_default_user idp_name with
      | Some d => d
      | None => PyStr "test@example.com"
      end
  end.

(** The session writes of the head of [DefaultOAuth2Login.get]. *)
Definition redirect_writes (r : option string) : list Event :=
  match r with
  | Some v => if String.eqb v "" then [] else [EvSessionSet "redirect" v]
  | None => []
  end.

(** The context after the head of [DefaultOAuth2Login.get], for a request
    whose redirect passed validation. *)
Definition ctx_after_redirect (r : option string) (c : Ctx) : Ctx :=
  let c1 := set_flask_redirect_url r c in
  match r with
  | Some v => if String.eqb v "" then c1 else set_session "redirect" v c1
  | None => c1
  end.

(** The response of a completed login, by priority: registration first,
    then the saved redirect, then the confirmation. *)
Definition spec_login_response (u : User) (c : Ctx) (username : pyval)
    : Response :=
  if truthy (REGISTER_USERS_ON config)
     && negb (truthy (dict_get (additional_info u) "registration_info"))
  then Redirect (BASE_URL config +:+ url_for_register_user)
  else match session c !! "redirect" with
       | Some r => if String.eqb r "" then Jsonify [("username", username)]
                   else Redirect r
       | None => Jsonify [("username", username)]
       end.

(** The audit record [prepare_login_log] leaves in [flask.g]. *)
Definition audit_of (u : User) (c : Ctx) (idp_name : string) : AuditData :=
  {| audit_username := user_username u;
     audit_sub := user_id u;
     audit_idp := idp_name;
     audit_fence_idp := session c !! "fence_idp";
     audit_shib_idp := session c !! "shib_idp";
     audit_client_id := session c !! "client_id" |}.

End LoginSpec.

(** ** The specification's reading of the callback's error branch *)

Section CallbackSpec.
Context `{E : Env}.

(** The caller's original redirect: the one saved in the session, else the
    configured base URL. *)
Definition spec_original_redirect (c : Ctx) : string :=
  match session c !! "redirect" with
  | Some r => if String.eqb r "" then BASE_URL config else r
  | None => BASE_URL config
  end.

(** The value of a query parameter: the last one given under that name. *)
Definition spec_param (k : string) (l : list (string * string))
    : option string :=
  args_get k (rev l).

(** The target: the [redirect_uri] parameter embedded in the original
    redirect, else the original redirect itself. *)
Definition spec_error_target (c : Ctx) : string :=
  let original := spec_original_redirect c in
  match spec_param "redirect_uri" (parse_qsl_query original) with
  | Some r => if String.eqb r "" then original else r
  | None => original
  end.

(** The merged parameters: the original redirect's first, then the ones
    the identity provider sent, nothing dropped. *)
Definition spec_error_query (rq : Request) (c : Ctx)
    : list (string * string) :=
  parse_qsl_query (spec_original_redirect c) ++ parse_qsl_query (url rq).

(** The username field is absent from the payload, or holds a falsy value
    ([None], the empty string, zero, [False]). *)
Definition username_missing (result : gmap string pyval) (field : string)
    : Prop :=
  result !! field = None
  \/ exists v, result !! field = Some v /\ truthy v = false.

(** The success branch after the exchange: the login, then the post-login
    hook. *)
Definition callback_tail (self : DefaultOAuth2Callback)
    (result : gmap string pyval) (username email : pyval) : M Response :=
  let* resp := _login username (cb_idp_name self) email in
  let* c := get_ctx in
  let* _ := post_login self (g_user c) result in
  ret resp.

End CallbackSpec.

(** ** A concrete deployment, to run the handlers on *)

Module Example.

(** The block of one provider in [OPENID_CONNECT]. *)
Definition google_block (mock : bool) (default_user : option string)
    : gmap string pyval :=
  let b : gmap string pyval := {[ "mock" := PyBool mock ]} in
  match default_user with
  | Some u => <[ "mock_default_user" := PyStr u ]> b
  | None => b
  end.

Definition cfg (mock : bool) (default_user : option string)
    (register : bool) : Config :=
  {| OPENID_CONNECT := {[ "google" := google_block mock default_user ]};
     REGISTER_USERS_ON := PyBool register;
     BASE_URL := "https://fence.example/user";
     DEV_LOGIN_COOKIE_NAME := Some "dev_login";
     cfg_entries := ∅ |}.

(** A validator that trusts one application, and a [login_user] that
    always finds the user (without registration metadata) and puts it in
    [flask.g]. *)
Definition allow (r : option string) : bool :=
  match r with
  | Some u => String.eqb u "" || String.prefix "https://app.example/" u
  | None => true
  end.

Definition find_user (username : pyval) (idp_name : string) (email : pyval)
    (c : Ctx) : option Ctx :=
  Some {| session := session c;
          g_user := Some {| user_username := username; user_id := 7;
                            additional_info := ∅ |};
          g_audit_data := g_audit_data c;
          flask_redirect_url := flask_redirect_url c |}.

(** The context [find_user] leaves. *)
Definition ctx_after_login (c : Ctx) : Ctx :=
  {| session := session c;
     g_user := Some {| user_username := PyStr "u@x.com"; user_id := 7;
                       additional_info := ∅ |};
     g_audit_data := g_audit_data c;
     flask_redirect_url := flask_redirect_url c |}.

Definition env (c : Config) : Env :=
  {| config := c;
     validate_redirect := allow;
     login_user := find_user;
     url_for_register_user := "/register";
     parse_qsl_query := fun u => Urllib.parse_qsl (Urllib.query u);
     urlencode := Urllib.urlencode |}.

Definition google_client : Client :=
  {| get_auth_url := Some "https://accounts.example/o/oauth2/auth";
     get_user_id := fun code =>
       match code with
       | Some "good" => Some {[ "email" := PyStr "u@x.com" ]}
       | Some "named" => Some {[ "name" := PyStr "u" ]}
       | _ => Some ∅
       end |}.

Definition google_login : DefaultOAuth2Login :=
  {| login_idp_name := "Google"; login_client := google_client |}.

Definition google_callback (ufield efield : string) : DefaultOAuth2Callback :=
  {| cb_idp_name := "Google"; cb_client := google_client;
     username_field := ufield; email_field := efield |}.

Definition empty_ctx : Ctx :=
  {| session := ∅; g_user := None; g_audit_data := None;
     flask_redirect_url := None |}.

Definition start : State := {| ctx := empty_ctx; trace := [] |}.

Definition start_with_redirect (r : string) : State :=
  {| ctx := set_session "redirect" r empty_ctx; trace := [] |}.

Definition request (a : list (string * string)) (ck : gmap string string)
    (u : string) : Request :=
  {| args := a; cookies := ck; url := u |}.

Definition alice : User :=
  {| user_username := PyStr "alice"; user_id := 42; additional_info := ∅ |}.

Definition constrained : Schema :=
  {| provider_name_unique := true; sub_unique := true |}.

Definition empty_db : Db :=
  {| providers := []; idp_to_users := []; next_idp_id := 1 |}.

(** A [login_user] that finds nobody and raises. *)
Definition no_user (username : pyval) (idp_name : string) (email : pyval)
    (c : Ctx) : option Ctx := None.

Definition env_no_user (c : Config) : Env :=
  {| config := c;
     validate_redirect := allow;
     login_user := no_user;
     url_for_register_user := "/register";
     parse_qsl_query := fun u => Urllib.parse_qsl (Urllib.query u);
     urlencode := Urllib.urlencode |}.

(** A configuration whose [mock] entry is the text [false], not the
    boolean. *)
Definition cfg_text_flag : Config :=
  {| OPENID_CONNECT := {[ "google" := {[ "mock" := PyStr "false" ]} ]};
     REGISTER_USERS_ON := PyBool false;
     BASE_URL := "https://fence.example/user";
     DEV_LOGIN_COOKIE_NAME := Some "dev_login";
     cfg_entries := ∅ |}.

(** A store that knows one provider and holds one binding to it. *)
Definition db_google : Db :=
  {| providers := [{| idp_id := 1; idp_name := "google";
                      idp_description := None |}];
     idp_to_users := [{| sub := "google_s0"; fk_to_idp := 1;
                         fk_to_User := 42; extra_info := None |}];
     next_idp_id := 2 |}.

End Example.

(** * Properties *)

Ltac run :=
  unfold bind, ret, raise, get_ctx, put_ctx, modify_ctx, emit; simpl.

Section LoginProperties.
Context `{E : Env}.

Lemma mock_enabled_spec idp_name :
  mock_enabled idp_name
  = spec_provider_mock_flag idp_name || spec_legacy_mock_flag idp_name.
Proof.
  unfold mock_enabled, mock_login, legacy_mock_login, provider_config,
    spec_provider_mock_flag, spec_legacy_mock_flag, dict_get_default.
  destruct (OPENID_CONNECT config !! lower idp_name) as [block|].
  - destruct (block !! "mock"); destruct (cfg_entries config !! _); reflexivity.
  - rewrite lookup_empty. destruct (cfg_entries config !! _); reflexivity.
Qed.

Lemma mock_default_user_spec idp_name :
  mock_default_user idp_name
  = match spec_configured_default_user idp_name with
    | Some d => d
    | None => PyStr "test@example.com"
    end.
Proof.
  unfold mock_default_user, provider_config, dict_get_default,
    spec_configured_default_user.
  destruct (OPENID_CONNECT config !! lower idp_name) as [block|];
    [reflexivity|].
  rewrite lookup_empty. reflexivity.
Qed.

Lemma mock_username_spec idp_name rq :
  mock_username idp_name rq = spec_mock_username idp_name rq.
Proof.
  unfold mock_username, spec_mock_username, dev_cookie, cookies_get.
  rewrite mock_default_user_spec.
  destruct (DEV_LOGIN_COOKIE_NAME config); [|reflexivity].
  destruct (cookies rq !! _); reflexivity.
Qed.

(** [login_response] reads the context and never changes the state. *)
Lemma login_response_state username s :
  snd (login_response username s) = s.
Proof.
  unfold login_response, the_user. run.
  destruct (truthy (REGISTER_USERS_ON config)); simpl.
  - destruct (g_user (ctx s)); simpl; [|reflexivity].
    destruct (negb _); simpl; [reflexivity|].
    destruct (truthy_str _); [destruct (session (ctx s) !! "redirect")|]; reflexivity.
  - destruct (truthy_str _); [destruct (session (ctx s) !! "redirect")|]; reflexivity.
Qed.

(** With an authenticated user in [flask.g], [login_response] returns the
    response the priority order selects. *)
Lemma login_response_user username s u :
  g_user (ctx s) = Some u ->
  login_response username s = (inr (spec_login_response u (ctx s) username), s).
Proof.
  intros Hu. unfold login_response, spec_login_response, the_user. run.
  destruct (truthy (REGISTER_USERS_ON config)); simpl.
  - rewrite Hu; simpl. destruct (negb _); simpl; [reflexivity|].
    unfold truthy_str.
    destruct (session (ctx s) !! "redirect") as [r|]; [|reflexivity].
    destruct (String.eqb r ""); reflexivity.
  - unfold truthy_str.
    destruct (session (ctx s) !! "redirect") as [r|]; [|reflexivity].
    destruct (String.eqb r ""); reflexivity.
Qed.

Lemma login_response_trace username s :
  trace (snd (login_response username s)) = trace s.
Proof. now rewrite login_response_state. Qed.

(** [_login] logs the one call to [login_user] and nothing else. *)
Lemma _login_trace username idp_name email s :
  trace (snd (_login username idp_name email s))
  = (trace s ++ [EvLoginUser username idp_name email])%list.
Proof.
  unfold _login, call_login_user. run.
  destruct (login_user username idp_name email (ctx s)); simpl; [|reflexivity].
  now rewrite login_response_trace.
Qed.

Lemma prepare_login_log_trace idp_name s :
  trace (snd (prepare_login_log idp_name s)) = trace s.
Proof.
  unfold prepare_login_log, the_user. run.
  destruct (g_user (ctx s)); reflexivity.
Qed.

End LoginProperties.

Section LoginTheorems.
Context `{E : Env}.

(** The inline completion of the mock branch. *)
Lemma mock_tail_trace idp_name username s :
  trace (snd ((let* resp := _login username idp_name PyNone in
               let* _ := prepare_login_log idp_name in
               ret resp) s))
  = (trace s ++ [EvLoginUser username idp_name PyNone])%list.
Proof.
  unfold bind at 1.
  pose proof (_login_trace username idp_name PyNone s) as Ht.
  destruct (_login username idp_name PyNone s) as [[e|resp] s1]; simpl in *;
    [exact Ht|].
  unfold bind, ret.
  pose proof (prepare_login_log_trace idp_name s1) as Hp.
  destruct (prepare_login_log idp_name s1) as [[e|[]] s2]; simpl in *; congruence.
Qed.

(** A request whose redirect is refused stops at the validation. *)
Lemma login_get_invalid (self : DefaultOAuth2Login) (rq : Request) (s : State) :
  validate_redirect (args_get "redirect" (args rq)) = false ->
  DefaultOAuth2Login_get self rq s
  = (inl InvalidRedirect,
     {| ctx := ctx s;
        trace := trace s ++ [EvValidateRedirect (args_get "redirect" (args rq))] |}).
Proof.
  intros Hv. unfold DefaultOAuth2Login_get, call_validate_redirect. run.
  rewrite Hv. reflexivity.
Qed.

(** A request whose redirect is accepted continues, from the context with
    the redirect saved, on one of the two branches. *)
Lemma login_get_valid (self : DefaultOAuth2Login) (rq : Request) (s : State) :
  let r := args_get "redirect" (args rq) in
  let idp := login_idp_name self in
  validate_redirect r = true ->
  DefaultOAuth2Login_get self rq s
  = (if mock_enabled idp then
       let* resp := _login (mock_username idp rq) idp PyNone in
       let* _ := prepare_login_log idp in
       ret resp
     else
       let* u := call_get_auth_url (login_client self) in
       ret (Redirect u))
    {| ctx := ctx_after_redirect r (ctx s);
       trace := trace s ++ EvValidateRedirect r :: redirect_writes r |}.
Proof.
  intros r idp Hv. unfold DefaultOAuth2Login_get, call_validate_redirect,
    session_set. fold r. fold idp. run. rewrite Hv. simpl.
  unfold ctx_after_redirect, redirect_writes, truthy_str.
  destruct r as [v|]; simpl; [destruct (String.eqb v ""); simpl|];
    rewrite <- ?app_assoc; reflexivity.
Qed.

(** Everything [DefaultOAuth2Login.get] does, in order. *)
Lemma login_get_trace (self : DefaultOAuth2Login) (rq : Request) (s : State) :
  let r := args_get "redirect" (args rq) in
  let idp := login_idp_name self in
  trace (snd (DefaultOAuth2Login_get self rq s)) =
     (trace s ++ EvValidateRedirect r ::
        (if validate_redirect r then
           redirect_writes r ++
           [if spec_provider_mock_flag idp || spec_legacy_mock_flag idp
            then EvLoginUser (spec_mock_username idp rq) idp PyNone
            else EvGetAuthUrl]
         else []))%list.
Proof.
  intros r idp.
  destruct (validate_redirect r) eqn:Hv.
  - pose proof (login_get_valid self rq s) as Hg. simpl in Hg.
    fold r in Hg. fold idp in Hg. rewrite (Hg Hv).
    rewrite mock_enabled_spec, mock_username_spec.
    destruct (spec_provider_mock_flag idp || spec_legacy_mock_flag idp).
    + rewrite mock_tail_trace. simpl. rewrite <- app_assoc. reflexivity.
    + unfold call_get_auth_url. run.
      destruct (get_auth_url (login_client self)); simpl;
        rewrite <- app_assoc; reflexivity.
  - rewrite (login_get_invalid self rq s Hv). reflexivity.
Qed.

(** The mock branch, when [login_user] finds the user. *)
Lemma mock_tail_result idp_name username c t c2 u :
  login_user username idp_name PyNone c = Some c2 ->
  g_user c2 = Some u ->
  (let* resp := _login username idp_name PyNone in
   let* _ := prepare_login_log idp_name in
   ret resp) {| ctx := c; trace := t |}
  = (inr (spec_login_response u c2 username),
     {| ctx := set_audit_data (audit_of u c2 idp_name) c2;
        trace := t ++ [EvLoginUser username idp_name PyNone] |}).
Proof.
  intros Hl Hu. unfold _login, call_login_user. run. rewrite Hl.
  rewrite (login_response_user username _ u) by exact Hu.
  unfold prepare_login_log, the_user. run. rewrite Hu. reflexivity.
Qed.

(** C6. Mock mode is taken exactly when the per-provider [mock] flag or the
    legacy [MOCK_<IDP>_AUTH] flag is true, and the username it logs in is
    the development cookie's value when the request carries that cookie,
    else the [mock_default_user] entry of the provider's block of
    [OPENID_CONNECT] (and [test@example.com] when there is no such entry):
    the calls of the login entry point are the validation, the session
    write, and then either [login_user] on that username (mock) or
    [get_auth_url] (no mock).  Flags, cookie and default are read here from
    the configuration and the request themselves. *)
Theorem mock_resolution (self : DefaultOAuth2Login) (rq : Request) (s : State) :
  let r := args_get "redirect" (args rq) in
  let idp := login_idp_name self in
  mock_enabled idp = spec_provider_mock_flag idp || spec_legacy_mock_flag idp
  /\ mock_username idp rq = spec_mock_username idp rq
  /\ trace (snd (DefaultOAuth2Login_get self rq s)) =
     (trace s ++ EvValidateRedirect r ::
        (if validate_redirect r then
           redirect_writes r ++
           [if spec_provider_mock_flag idp || spec_legacy_mock_flag idp
            then EvLoginUser (spec_mock_username idp rq) idp PyNone
            else EvGetAuthUrl]
         else []))%list.
Proof.
  intros r idp. split; [apply mock_enabled_spec|].
  split; [apply mock_username_spec|]. apply login_get_trace.
Qed.

(** C10. A mock login whose provider block names no [mock_default_user],
    on a request without the development cookie, logs in the hardcoded
    [test@example.com]. *)
Theorem mock_default_fallback (self : DefaultOAuth2Login) (rq : Request)
    (s : State) :
  let r := args_get "redirect" (args rq) in
  let idp := login_idp_name self in
  mock_enabled idp = true ->
  (forall block, OPENID_CONNECT config !! lower idp = Some block ->
                 block !! "mock_default_user" = None) ->
  dev_cookie rq = None ->
  validate_redirect r = true ->
  mock_username idp rq = PyStr "test@example.com"
  /\ trace (snd (DefaultOAuth2Login_get self rq s)) =
     (trace s ++ EvValidateRedirect r :: redirect_writes r ++
        [EvLoginUser (PyStr "test@example.com") idp PyNone])%list.
Proof.
  intros r idp Hm Hb Hc Hv.
  assert (Hu : mock_username idp rq = PyStr "test@example.com").
  { rewrite mock_username_spec. unfold spec_mock_username. rewrite Hc.
    unfold spec_configured_default_user.
    destruct (OPENID_CONNECT config !! lower idp) as [block|] eqn:Hblock.
    - rewrite (Hb block eq_refl). reflexivity.
    - reflexivity. }
  split; [exact Hu|].
  rewrite login_get_trace. fold r. fold idp.
  rewrite Hv, <- mock_enabled_spec, Hm, <- mock_username_spec, Hu.
  reflexivity.
Qed.

(** C5. In mock mode the login entry point never reaches the identity
    provider's client: whatever the outcome, neither [get_auth_url] nor the
    code exchange is called; and when the redirect is accepted and
    [login_user] finds the user, the login is completed inline: the result
    is the response of the login-completion sequence, with the audit record
    built. *)
Theorem mock_login_inline (self : DefaultOAuth2Login) (rq : Request)
    (s : State) :
  let r := args_get "redirect" (args rq) in
  let idp := login_idp_name self in
  let username := mock_username idp rq in
  mock_enabled idp = true ->
  List.filter is_client_event (trace (snd (DefaultOAuth2Login_get self rq s)))
  = List.filter is_client_event (trace s)
  /\ (validate_redirect r = true ->
      forall c2 u,
        login_user username idp PyNone (ctx_after_redirect r (ctx s)) = Some c2 ->
        g_user c2 = Some u ->
        DefaultOAuth2Login_get self rq s
        = (inr (spec_login_response u c2 username),
           {| ctx := set_audit_data (audit_of u c2 idp) c2;
              trace := trace s ++ EvValidateRedirect r :: redirect_writes r
                       ++ [EvLoginUser username idp PyNone] |})).
Proof.
  intros r idp username Hm. split.
  - rewrite login_get_trace. fold r. fold idp.
    rewrite <- mock_enabled_spec, Hm.
    rewrite List.filter_app. simpl.
    destruct (validate_redirect r); simpl.
    + rewrite List.filter_app. simpl.
      assert (Hw : List.filter is_client_event (redirect_writes r) = []).
      { unfold redirect_writes. destruct r as [v|]; [|reflexivity].
        destruct (String.eqb v ""); reflexivity. }
      rewrite Hw. simpl. apply app_nil_r.
    + apply app_nil_r.
  - intros Hv c2 u Hl Hu.
    pose proof (login_get_valid self rq s) as Hg. simpl in Hg.
    fold r in Hg. fold idp in Hg. rewrite (Hg Hv), Hm. fold username.
    rewrite (mock_tail_result idp username _ _ c2 u Hl Hu).
    rewrite <- app_assoc. reflexivity.
Qed.

(** C7. The redirect is validated before anything is written to the
    session: the validation is the first thing the login entry point does,
    a session write happens only after it succeeded and writes the
    validated value under [redirect]; when the validation fails the handler
    raises [InvalidRedirect] with the whole context, the session's pending
    redirect included, as it was, and returns no response. *)
Theorem validation_precedes_session_write (self : DefaultOAuth2Login)
    (rq : Request) (s : State) :
  let r := args_get "redirect" (args rq) in
  let out := DefaultOAuth2Login_get self rq s in
  (exists rest,
     trace (snd out) = (trace s ++ EvValidateRedirect r :: rest)%list
     /\ forall k v, In (EvSessionSet k v) rest ->
          validate_redirect r = true /\ k = "redirect" /\ r = Some v)
  /\ (validate_redirect r = false ->
      out = (inl InvalidRedirect,
             {| ctx := ctx s; trace := trace s ++ [EvValidateRedirect r] |})).
Proof.
  intros r out. split.
  - eexists. split; [apply login_get_trace|].
    fold r. intros k v Hin.
    destruct (validate_redirect r); [|destruct Hin].
    apply in_app_or in Hin. destruct Hin as [Hin|Hin].
    + unfold redirect_writes in Hin. destruct r as [w|]; [|destruct Hin].
      destruct (String.eqb w ""); [destruct Hin|].
      destruct Hin as [Heq|[]]. inversion Heq; subst. auto.
    + destruct Hin as [Heq|[]].
      destruct (spec_provider_mock_flag _ || spec_legacy_mock_flag _);
        discriminate Heq.
  - intros Hv. apply login_get_invalid. exact Hv.
Qed.

(** C4. The response of a completed login, by priority: when registration
    is on and the user has no registration metadata, a redirect to the
    registration endpoint, whatever the session holds; else, when the
    session holds a redirect, a redirect to it; else the JSON body with the
    username and nothing else. *)
Theorem login_response_priority (username : pyval) (idp_name : string)
    (email : pyval) (c : Ctx) (t : list Event) (c' : Ctx) (u : User) :
  login_user username idp_name email c = Some c' ->
  g_user c' = Some u ->
  let needs_registration :=
    truthy (REGISTER_USERS_ON config)
    && negb (truthy (dict_get (additional_info u) "registration_info")) in
  exists resp,
    _login username idp_name email {| ctx := c; trace := t |}
    = (inr resp,
       {| ctx := c'; trace := t ++ [EvLoginUser username idp_name email] |})
    /\ (needs_registration = true ->
        resp = Redirect (BASE_URL config +:+ url_for_register_user))
    /\ (needs_registration = false ->
        forall r, session c' !! "redirect" = Some r -> r <> "" ->
                  resp = Redirect r)
    /\ (needs_registration = false ->
        session c' !! "redirect" = None \/ session c' !! "redirect" = Some "" ->
        resp = Jsonify [("username", username)]).
Proof.
  intros Hl Hu needs. exists (spec_login_response u c' username).
  split.
  - unfold _login, call_login_user. run. rewrite Hl. simpl.
    apply (login_response_user username
             {| ctx := c'; trace := t ++ [EvLoginUser username idp_name email] |} u).
    exact Hu.
  - unfold spec_login_response. fold needs.
    repeat split.
    + intros ->. reflexivity.
    + intros -> r Hr Hne. rewrite Hr.
      destruct (String.eqb_spec r ""); [contradiction|reflexivity].
    + intros -> [Hr|Hr]; rewrite Hr; reflexivity.
Qed.

End LoginTheorems.

Section CallbackTheorems.
Context `{E : Env}.

Lemma args_get_app k (l1 l2 : list (string * string)) :
  args_get k (l1 ++ l2)
  = match args_get k l1 with
    | Some v => Some v
    | None => args_get k l2
    end.
Proof.
  induction l1 as [|[k' v] l1 IH]; simpl; [reflexivity|].
  destruct (String.eqb k' k); [reflexivity|exact IH].
Qed.

(** Building a dict from the pairs keeps the last value of each key. *)
Lemma dict_of_pairs_get_last k (l : list (string * string)) :
  dict_of_pairs_get k l = spec_param k l.
Proof.
  unfold spec_param. induction l as [|[k' v] l IH]; simpl; [reflexivity|].
  rewrite args_get_app, <- IH. simpl.
  destruct (dict_of_pairs_get k l); [reflexivity|].
  destruct (String.eqb k' k); reflexivity.
Qed.

Lemma error_redirect_location_spec (rq : Request) (c : Ctx) :
  error_redirect_location rq c
  = before_question (spec_error_target c) +:+ "?"
    +:+ urlencode (spec_error_query rq c).
Proof.
  unfold error_redirect_location, spec_error_target, spec_error_query.
  assert (Ho : (if truthy_str (session c !! "redirect")
                then match session c !! "redirect" with
                     | Some r => r
                     | None => ""
                     end
                else BASE_URL config) = spec_original_redirect c).
  { unfold spec_original_redirect, truthy_str.
    destruct (session c !! "redirect") as [r|]; [|reflexivity].
    destruct (String.eqb r ""); reflexivity. }
  rewrite Ho. rewrite dict_of_pairs_get_last. unfold truthy_str.
  destruct (spec_param "redirect_uri" _) as [r|]; [|reflexivity].
  destruct (String.eqb r ""); reflexivity.
Qed.

Lemma callback_get_success (self : DefaultOAuth2Callback) (rq : Request)
    (s : State) (result : gmap string pyval) :
  let code := args_get "code" (args rq) in
  truthy_str (args_get "error" (args rq)) = false ->
  get_user_id (cb_client self) code = Some result ->
  DefaultOAuth2Callback_get self rq s
  = (if truthy (dict_get result (username_field self)) then
       callback_tail self result (dict_get result (username_field self))
         (dict_get result (email_field self))
     else raise (UserError result))
    {| ctx := ctx s; trace := trace s ++ [EvGetUserId code] |}.
Proof.
  intros code He Hr. unfold DefaultOAuth2Callback_get, call_get_user_id.
  rewrite He. fold code. run. rewrite Hr. reflexivity.
Qed.

Lemma callback_tail_trace self result username email s :
  trace (snd (callback_tail self result username email s))
  = (trace s ++ [EvLoginUser username (cb_idp_name self) email])%list.
Proof.
  unfold callback_tail. unfold bind at 1.
  pose proof (_login_trace username (cb_idp_name self) email s) as Ht.
  destruct (_login username (cb_idp_name self) email s) as [[e|resp] s1];
    simpl in *; [exact Ht|].
  unfold post_login. run.
  pose proof (prepare_login_log_trace (cb_idp_name self) s1) as Hp.
  destruct (prepare_login_log (cb_idp_name self) s1) as [[e|[]] s2];
    simpl in *; congruence.
Qed.

(** Nothing after the exchange raises a [UserError]. *)
Lemma callback_tail_no_user_error self result username email s p :
  fst (callback_tail self result username email s) <> inl (UserError p).
Proof.
  unfold callback_tail, _login, call_login_user, post_login,
    prepare_login_log, the_user. run.
  destruct (login_user username (cb_idp_name self) email (ctx s)) as [c2|];
    simpl; [|discriminate].
  pose proof (login_response_state username
    {| ctx := c2;
       trace := trace s ++ [EvLoginUser username (cb_idp_name self) email] |})
    as Hs.
  destruct (login_response username _) as [[e|resp] s1] eqn:Hresp; simpl in *.
  - subst s1. revert Hresp. unfold login_response, the_user. run.
    destruct (truthy (REGISTER_USERS_ON config)); simpl.
    + destruct (g_user c2); simpl.
      * destruct (negb _); simpl; [discriminate|].
        destruct (truthy_str _); [destruct (session c2 !! "redirect")|];
          discriminate.
      * intros Heq. inversion Heq. discriminate.
    + destruct (truthy_str _); [destruct (session c2 !! "redirect")|];
        discriminate.
  - destruct (g_user (ctx s1)); simpl; discriminate.
Qed.

Lemma callback_tail_result self result username email c t c2 u :
  login_user username (cb_idp_name self) email c = Some c2 ->
  g_user c2 = Some u ->
  callback_tail self result username email {| ctx := c; trace := t |}
  = (inr (spec_login_response u c2 username),
     {| ctx := set_audit_data (audit_of u c2 (cb_idp_name self)) c2;
        trace := t ++ [EvLoginUser username (cb_idp_name self) email] |}).
Proof.
  intros Hl Hu. unfold callback_tail, _login, call_login_user. run.
  rewrite Hl. simpl.
  rewrite (login_response_user username
    {| ctx := c2;
       trace := t ++ [EvLoginUser username (cb_idp_name self) email] |} u Hu).
  unfold post_login, prepare_login_log, the_user. run. rewrite Hu. reflexivity.
Qed.

Lemma truthy_dict_get_missing (result : gmap string pyval) field :
  truthy (dict_get result field) = false <-> username_missing result field.
Proof.
  unfold dict_get, username_missing.
  destruct (result !! field) as [v|]; split.
  - intros Hv. right. exists v. auto.
  - intros [Hn|[w [Hw Ht]]]; [discriminate|]. inversion Hw; subst. exact Ht.
  - auto.
  - reflexivity.
Qed.


(** C3. On a callback without an error marker whose code exchange returned
    a payload, the handler raises a [UserError] exactly when the payload
    has no value, or an empty one, under the configured username field; the
    error then carries the payload as returned, [login_user] has not been
    called and the context is untouched. *)
Theorem username_required (self : DefaultOAuth2Callback) (rq : Request)
    (s : State) (result : gmap string pyval) :
  let code := args_get "code" (args rq) in
  let out := DefaultOAuth2Callback_get self rq s in
  truthy_str (args_get "error" (args rq)) = false ->
  get_user_id (cb_client self) code = Some result ->
  ((exists p, fst out = inl (UserError p))
   <-> username_missing result (username_field self))
  /\ (username_missing result (username_field self) ->
      out = (inl (UserError result),
             {| ctx := ctx s; trace := trace s ++ [EvGetUserId code] |})).
Proof.
  intros code out He Hr. unfold out.
  rewrite (callback_get_success self rq s result He Hr). fold code.
  destruct (truthy (dict_get result (username_field self))) eqn:Hu.
  - assert (Hn : ~ username_missing result (username_field self)).
    { intros Hm. apply truthy_dict_get_missing in Hm. congruence. }
    split; [split|].
    + intros [p Hp]. exfalso.
      exact (callback_tail_no_user_error _ _ _ _ _ _ Hp).
    + intros Hm. contradiction.
    + intros Hm. contradiction.
  - apply truthy_dict_get_missing in Hu. split; [split|].
    + intros _. exact Hu.
    + intros _. exists result. reflexivity.
    + intros _. reflexivity.
Qed.

(** C9. A payload with a username but without the email field still logs
    in: [login_user] is called with the username and [None] for the email,
    and when it finds the user the handler returns the login's response. *)
Theorem missing_email_is_not_fatal (self : DefaultOAuth2Callback)
    (rq : Request) (s : State) (result : gmap string pyval) :
  let code := args_get "code" (args rq) in
  let idp := cb_idp_name self in
  let username := dict_get result (username_field self) in
  let out := DefaultOAuth2Callback_get self rq s in
  truthy_str (args_get "error" (args rq)) = false ->
  get_user_id (cb_client self) code = Some result ->
  truthy username = true ->
  result !! email_field self = None ->
  trace (snd out)
  = (trace s ++ [EvGetUserId code; EvLoginUser username idp PyNone])%list
  /\ (forall p, fst out <> inl (UserError p))
  /\ (forall c2 u,
        login_user username idp PyNone (ctx s) = Some c2 ->
        g_user c2 = Some u ->
        out = (inr (spec_login_response u c2 username),
               {| ctx := set_audit_data (audit_of u c2 idp) c2;
                  trace := trace s ++ [EvGetUserId code;
                                       EvLoginUser username idp PyNone] |})).
Proof.
  intros code idp username out He Hr Hu Hm. unfold out.
  rewrite (callback_get_success self rq s result He Hr). fold code.
  fold username. rewrite Hu.
  assert (Hemail : dict_get result (email_field self) = PyNone).
  { unfold dict_get. rewrite Hm. reflexivity. }
  rewrite Hemail. split; [|split].
  - rewrite callback_tail_trace. simpl. rewrite <- app_assoc. reflexivity.
  - intros p. apply callback_tail_no_user_error.
  - intros c2 u Hl Hg.
    rewrite (callback_tail_result self result username PyNone _ _ c2 u Hl Hg).
    rewrite <- app_assoc. reflexivity.
Qed.

End CallbackTheorems.

(** ** The identity mapping *)

Section MappingTheorems.

Lemma first_provider_none provider l :
  first_provider provider l = None -> has_provider provider l = false.
Proof.
  induction l as [|p l IH]; simpl; [reflexivity|].
  destruct (String.eqb (idp_name p) provider); [discriminate|exact IH].
Qed.

Lemma first_provider_has provider l p :
  first_provider provider l = Some p -> has_provider provider l = true.
Proof.
  induction l as [|q l IH]; simpl; [discriminate|].
  destruct (String.eqb (idp_name q) provider); [reflexivity|exact IH].
Qed.

Lemma first_provider_app_new provider l p :
  first_provider provider l = None ->
  idp_name p = provider ->
  first_provider provider (l ++ [p]) = Some p.
Proof.
  intros Hn Hp. induction l as [|q l IH]; simpl in *.
  - rewrite Hp, String.eqb_refl. reflexivity.
  - destruct (String.eqb (idp_name q) provider); [discriminate|auto].
Qed.

Lemma count_sub_app s l1 l2 :
  count_sub s (l1 ++ l2) = (count_sub s l1 + count_sub s l2)%nat.
Proof. unfold count_sub. rewrite List.filter_app. apply List.length_app. Qed.

Lemma has_sub_app s l1 l2 :
  has_sub s (l1 ++ l2) = has_sub s l1 || has_sub s l2.
Proof. unfold has_sub. apply existsb_app. Qed.

(** The provider step always commits, leaves the bindings alone, and hands
    back a row of the asked name that the store now holds. *)
Lemma get_or_create_provider_ok sc provider db :
  exists idp db1,
    get_or_create_provider sc provider db = (Committed, Some idp, db1)
    /\ idp_name idp = provider
    /\ first_provider provider (providers db1) = Some idp
    /\ idp_to_users db1 = idp_to_users db
    /\ match first_provider provider (providers db) with
       | Some _ => db1 = db
       | None =>
           idp = {| idp_id := next_idp_id db; idp_name := provider;
                    idp_description := Some "IdP from foreign Passport" |}
           /\ providers db1 = providers db ++ [idp]
       end.
Proof.
  unfold get_or_create_provider, add_provider.
  destruct (first_provider provider (providers db)) as [idp|] eqn:Hf.
  - exists idp, db. repeat split; auto.
    clear -Hf. induction (providers db) as [|q l IH]; simpl in *;
      [discriminate|].
    destruct (String.eqb_spec (idp_name q) provider).
    + congruence.
    + auto.
  - rewrite (first_provider_none _ _ Hf), andb_false_r.
    eexists _, _. split; [reflexivity|]. simpl. repeat split.
    apply first_provider_app_new; [exact Hf|reflexivity].
Qed.

(** What one call does to the bindings. *)
Lemma map_user_idp_info_step sc user idp_sub provider db extra :
  let key := composite_sub provider idp_sub in
  let out := map_user_idp_info sc user idp_sub provider db extra in
  if sub_unique sc && has_sub key (idp_to_users db) then
    fst out = IntegrityError /\ idp_to_users (snd out) = idp_to_users db
  else
    fst out = Committed
    /\ exists idp,
         first_provider provider (providers (snd out)) = Some idp
         /\ idp_to_users (snd out)
            = idp_to_users db ++
              [{| sub := key; fk_to_idp := idp_id idp;
                  fk_to_User := user_id user; extra_info := extra |}].
Proof.
  intros key out. unfold out, map_user_idp_info.
  destruct (get_or_create_provider_ok sc provider db)
    as (idp & db1 & Hg & _ & Hfirst & Hrows & _).
  rewrite Hg. unfold add_idp_to_user. simpl. fold key. rewrite Hrows.
  destruct (sub_unique sc && has_sub key (idp_to_users db)); simpl.
  - auto.
  - split; [reflexivity|]. exists idp. auto.
Qed.

Lemma count_sub_self key idp uid extra :
  count_sub key [{| sub := key; fk_to_idp := idp; fk_to_User := uid;
                    extra_info := extra |}] = 1%nat.
Proof. unfold count_sub. simpl. rewrite String.eqb_refl. reflexivity. Qed.

Lemma has_sub_self key idp uid extra :
  has_sub key [{| sub := key; fk_to_idp := idp; fk_to_User := uid;
                  extra_info := extra |}] = true.
Proof. unfold has_sub. simpl. rewrite String.eqb_refl. reflexivity. Qed.

(** Two calls with the same arguments, for either setting of the
    constraint on [sub].  The mapping never looks for an existing binding:
    a call that returns has appended one more row under the composite key;
    on a store with the constraint a call returns only when no row has the
    key, and the second of two calls always raises the store's integrity
    error and adds nothing. *)
Lemma map_user_idp_info_twice (sc : Schema) (user : User)
    (idp_sub provider : string) (db : Db)
    (extra : option (gmap string pyval)) :
  let key := composite_sub provider idp_sub in
  let out1 := map_user_idp_info sc user idp_sub provider db extra in
  let out2 := map_user_idp_info sc user idp_sub provider (snd out1) extra in
  (fst out1 = Committed <->
     sub_unique sc = false \/ has_sub key (idp_to_users db) = false)
  /\ (fst out1 = Committed ->
      count_sub key (idp_to_users (snd out1))
      = S (count_sub key (idp_to_users db)))
  /\ (sub_unique sc = false ->
      fst out1 = Committed /\ fst out2 = Committed
      /\ count_sub key (idp_to_users (snd out2))
         = S (S (count_sub key (idp_to_users db))))
  /\ (sub_unique sc = true ->
      fst out2 = IntegrityError
      /\ idp_to_users (snd out2) = idp_to_users (snd out1)).
Proof.
  intros key out1 out2.
  pose proof (map_user_idp_info_step sc user idp_sub provider db extra) as H1.
  pose proof (map_user_idp_info_step sc user idp_sub provider (snd out1) extra)
    as H2.
  simpl in H1, H2. fold key in H1, H2. fold out1 in H1, H2. fold out2 in H2.
  destruct (sub_unique sc) eqn:Hsu; simpl in H1, H2.
  - destruct (has_sub key (idp_to_users db)) eqn:Hhas.
    + destruct H1 as [Ho1 Hr1]. rewrite Hr1, Hhas in H2.
      split; [split|split; [|split]].
      * rewrite Ho1. discriminate.
      * intros [?|?]; discriminate.
      * rewrite Ho1. discriminate.
      * discriminate.
      * intros _. rewrite Hr1. exact H2.
    + destruct H1 as [Ho1 (idp & _ & Hr1)].
      rewrite Hr1, has_sub_app, has_sub_self, orb_true_r in H2.
      split; [split|split; [|split]].
      * auto.
      * intros _. exact Ho1.
      * intros _. rewrite Hr1, count_sub_app, count_sub_self. lia.
      * discriminate.
      * intros _. rewrite Hr1. exact H2.
  - destruct H1 as [Ho1 (idp1 & _ & Hr1)].
    destruct H2 as [Ho2 (idp2 & _ & Hr2)].
    split; [split|split; [|split]].
    + auto.
    + intros _. exact Ho1.
    + intros _. rewrite Hr1, count_sub_app, count_sub_self. lia.
    + intros _. split; [exact Ho1|split; [exact Ho2|]].
      rewrite Hr2, Hr1, !count_sub_app, !count_sub_self. lia.
    + discriminate.
Qed.

Lemma has_sub_count key l :
  has_sub key l = negb (Nat.eqb (count_sub key l) 0).
Proof.
  unfold has_sub, count_sub. induction l as [|r l IH]; simpl; [reflexivity|].
  destruct (String.eqb (sub r) key); simpl; [reflexivity|exact IH].
Qed.

(** C1. On a store that enforces the uniqueness of [sub], and so holds at
    most one binding under the composite key, two calls of the mapping with
    the same user, subject and provider leave exactly one row under that
    key: the second call adds no row.  (It is the store that refuses the
    duplicate: the second call ends in the store's integrity error.) *)
Theorem map_user_idp_info_twice_one_row (sc : Schema) (user : User)
    (idp_sub provider : string) (db : Db)
    (extra : option (gmap string pyval)) :
  let key := composite_sub provider idp_sub in
  let out1 := map_user_idp_info sc user idp_sub provider db extra in
  let out2 := map_user_idp_info sc user idp_sub provider (snd out1) extra in
  sub_unique sc = true ->
  (count_sub key (idp_to_users db) <= 1)%nat ->
  count_sub key (idp_to_users (snd out2)) = 1%nat
  /\ idp_to_users (snd out2) = idp_to_users (snd out1)
  /\ fst out2 = IntegrityError.
Proof.
  intros key out1 out2 Hsu Hle.
  pose proof (map_user_idp_info_step sc user idp_sub provider db extra) as H1.
  pose proof (map_user_idp_info_step sc user idp_sub provider (snd out1) extra)
    as H2.
  simpl in H1, H2. fold key in H1, H2. fold out1 in H1, H2. fold out2 in H2.
  rewrite Hsu in H1, H2. simpl in H1, H2.
  pose proof (has_sub_count key (idp_to_users db)) as Hc.
  destruct (has_sub key (idp_to_users db)) eqn:Hhas.
  - destruct H1 as [_ Hr1]. rewrite Hr1, Hhas in H2.
    destruct H2 as [Ho2 Hr2]. rewrite Hr2, Hr1.
    split; [|split; [reflexivity|exact Ho2]].
    destruct (count_sub key (idp_to_users db)) as [|[|n]];
      [discriminate Hc|reflexivity|lia].
  - destruct H1 as [_ (idp & _ & Hr1)].
    rewrite Hr1, has_sub_app, has_sub_self, orb_true_r in H2.
    destruct H2 as [Ho2 Hr2].
    split; [|split; [congruence|exact Ho2]].
    rewrite Hr2, count_sub_app, count_sub_self.
    destruct (count_sub key (idp_to_users db)) as [|n];
      [reflexivity|discriminate Hc].
Qed.

(** C8. After the mapping, whatever its outcome, the store holds a
    provider row of the asked name: a store that had one keeps its
    providers as they were, a store that had none gets one more row, with
    the next id and the description [IdP from foreign Passport], and the
    binding the mapping appends points to that row's id.  The mapping fails
    only on a store that constrains [sub] and already has a row under the
    composite key, never for want of the provider row. *)
Theorem provider_auto_registration (sc : Schema) (user : User)
    (idp_sub provider : string) (db : Db)
    (extra : option (gmap string pyval)) :
  let key := composite_sub provider idp_sub in
  let out := map_user_idp_info sc user idp_sub provider db extra in
  has_provider provider (providers (snd out)) = true
  /\ match first_provider provider (providers db) with
     | Some _ => providers (snd out) = providers db
     | None =>
         providers (snd out)
         = providers db ++
           [{| idp_id := next_idp_id db; idp_name := provider;
               idp_description := Some "IdP from foreign Passport" |}]
     end
  /\ (fst out = IntegrityError ->
      sub_unique sc = true /\ has_sub key (idp_to_users db) = true)
  /\ (fst out = Committed ->
      exists idp,
        first_provider provider (providers (snd out)) = Some idp
        /\ idp_to_users (snd out)
           = idp_to_users db ++
             [{| sub := key; fk_to_idp := idp_id idp;
                 fk_to_User := user_id user; extra_info := extra |}]).
Proof.
  intros key out.
  pose proof (map_user_idp_info_step sc user idp_sub provider db extra) as Hs.
  simpl in Hs. fold key in Hs. fold out in Hs.
  assert (Hp : first_provider provider (providers (snd out)) <> None
               /\ match first_provider provider (providers db) with
                  | Some _ => providers (snd out) = providers db
                  | None =>
                      providers (snd out)
                      = providers db ++
                        [{| idp_id := next_idp_id db; idp_name := provider;
                            idp_description := Some "IdP from foreign Passport" |}]
                  end).
  { unfold out, map_user_idp_info.
    destruct (get_or_create_provider_ok sc provider db)
      as (idp & db1 & Hg & _ & Hfirst & _ & Hshape).
    rewrite Hg. unfold add_idp_to_user.
    destruct (sub_unique sc && has_sub _ (idp_to_users db1)); simpl;
      (split; [congruence|]);
      destruct (first_provider provider (providers db));
      [subst db1; reflexivity | destruct Hshape as [-> ->]; reflexivity
      | subst db1; reflexivity | destruct Hshape as [-> ->]; reflexivity]. }
  destruct Hp as [Hsome Hshape].
  split; [|split; [exact Hshape|split]].
  - destruct (first_provider provider (providers (snd out))) as [p|] eqn:Hf;
      [|congruence]. exact (first_provider_has _ _ _ Hf).
  - intros Hfail.
    destruct (sub_unique sc && has_sub key (idp_to_users db)) eqn:Hc.
    + apply andb_true_iff in Hc. exact Hc.
    + destruct Hs as [Hs _]. congruence.
  - intros Hok.
    destruct (sub_unique sc && has_sub key (idp_to_users db)) eqn:Hc.
    + destruct Hs as [Hs _]. congruence.
    + apply Hs.
Qed.

End MappingTheorems.

(** ** The properties at work on the example deployment *)

Section Witnesses.
Import Example.

(** Registration off, a redirect saved: the login answers with it. *)
Lemma login_response_priority_witness :
  let c := set_session "redirect" "https://app.example/next" empty_ctx in
  find_user (PyStr "u@x.com") "Google" PyNone c
    = Some (ctx_after_login c)
  /\ fst (@_login (env (cfg false None false)) (PyStr "u@x.com") "Google"
            PyNone {| ctx := c; trace := [] |})
     = inr (Redirect "https://app.example/next").
Proof.
  intros c.
  destruct (@login_response_priority (env (cfg false None false))
              (PyStr "u@x.com") "Google" PyNone c [] (ctx_after_login c)
              {| user_username := PyStr "u@x.com"; user_id := 7;
                 additional_info := ∅ |} eq_refl eq_refl)
    as (resp & Hrun & _ & Hsaved & _).
  split; [reflexivity|].
  rewrite Hrun. simpl. f_equal.
  apply (Hsaved eq_refl "https://app.example/next"); [reflexivity|discriminate].
Defined.

(** The provider block sets [mock] only and the request has no cookie:
    the login is for [test@example.com]. *)
Lemma mock_default_fallback_witness :
  let rq := request [] ∅ "https://fence.example/login/google" in
  @mock_enabled (env (cfg true None false)) "Google" = true
  /\ @dev_cookie (env (cfg true None false)) rq = None
  /\ trace (snd (@DefaultOAuth2Login_get (env (cfg true None false))
                   google_login rq start))
     = [EvValidateRedirect None;
        EvLoginUser (PyStr "test@example.com") "Google" PyNone].
Proof.
  intros rq.
  assert (Hm : @mock_enabled (env (cfg true None false)) "Google" = true)
    by (vm_compute; reflexivity).
  assert (Hc : @dev_cookie (env (cfg true None false)) rq = None)
    by (vm_compute; reflexivity).
  split; [exact Hm|]. split; [exact Hc|].
  refine (proj2 (@mock_default_fallback (env (cfg true None false))
                   google_login rq start Hm _ Hc eq_refl)).
  intros block Hb. vm_compute in Hb. inversion Hb. vm_compute. reflexivity.
Defined.

(** The spec's mock example: [mock] on, default user [a@x.com], no cookie.
    The login completes as [a@x.com] and the client is never called. *)
Lemma mock_login_inline_witness :
  let rq := request [] ∅ "https://fence.example/login/google" in
  let out := @DefaultOAuth2Login_get (env (cfg true (Some "a@x.com") false))
               google_login rq start in
  @mock_enabled (env (cfg true (Some "a@x.com") false)) "Google" = true
  /\ List.filter is_client_event (trace (snd out)) = []
  /\ fst out = inr (Jsonify [("username", PyStr "a@x.com")]).
Proof.
  intros rq out.
  assert (Hm : @mock_enabled (env (cfg true (Some "a@x.com") false)) "Google"
               = true) by (vm_compute; reflexivity).
  destruct (@mock_login_inline (env (cfg true (Some "a@x.com") false))
              google_login rq start Hm) as [Hquiet Hdone].
  split; [exact Hm|]. split; [exact Hquiet|].
  unfold out. erewrite (Hdone eq_refl); [|vm_compute; reflexivity|reflexivity].
  vm_compute. reflexivity.
Defined.


(** The spec's empty payload: the exchange returns [{}] and the handler
    raises with it. *)
Lemma username_required_witness :
  let rq := request [("code", "other")] ∅
              "https://fence.example/login/google/callback?code=other" in
  truthy_str (args_get "error" (args rq)) = false
  /\ get_user_id google_client (Some "other") = Some ∅
  /\ @DefaultOAuth2Callback_get (env (cfg false None false))
       (google_callback "email" "email") rq start
     = (inl (UserError ∅),
        {| ctx := empty_ctx; trace := [EvGetUserId (Some "other")] |}).
Proof.
  intros rq. split; [reflexivity|]. split; [reflexivity|].
  refine (proj2 (@username_required (env (cfg false None false))
                   (google_callback "email" "email") rq start ∅
                   eq_refl eq_refl) _).
  left. vm_compute. reflexivity.
Defined.

(** A payload with a name and no email, read with [username_field="name"]
    and [email_field="email"]: the login goes through with no email. *)
Lemma missing_email_is_not_fatal_witness :
  let rq := request [("code", "named")] ∅
              "https://fence.example/login/google/callback?code=named" in
  let out := @DefaultOAuth2Callback_get (env (cfg false None false))
               (google_callback "name" "email") rq start in
  truthy_str (args_get "error" (args rq)) = false
  /\ get_user_id google_client (Some "named") = Some {[ "name" := PyStr "u" ]}
  /\ trace (snd out)
     = [EvGetUserId (Some "named"); EvLoginUser (PyStr "u") "Google" PyNone]
  /\ fst out = inr (Jsonify [("username", PyStr "u")]).
Proof.
  intros rq out.
  assert (Hu : truthy (dict_get ({[ "name" := PyStr "u" ]} : gmap string pyval)
                         "name") = true) by (vm_compute; reflexivity).
  assert (He : ({[ "name" := PyStr "u" ]} : gmap string pyval) !! "email" = None)
    by (vm_compute; reflexivity).
  destruct (@missing_email_is_not_fatal (env (cfg false None false))
              (google_callback "name" "email") rq start
              {[ "name" := PyStr "u" ]} eq_refl eq_refl Hu He)
    as (Htrace & _ & Hdone).
  split; [reflexivity|]. split; [reflexivity|]. split; [exact Htrace|].
  unfold out. erewrite Hdone; [|vm_compute; reflexivity|reflexivity].
  vm_compute. reflexivity.
Defined.

(** A first login and a re-login of the same subject on the constrained
    store: one binding. *)
Lemma map_user_idp_info_twice_one_row_witness :
  let out1 := map_user_idp_info constrained alice "s1" "google" empty_db None in
  let out2 := map_user_idp_info constrained alice "s1" "google" (snd out1)
                None in
  sub_unique constrained = true
  /\ (count_sub "google_s1" (idp_to_users empty_db) <= 1)%nat
  /\ count_sub "google_s1" (idp_to_users (snd out2)) = 1%nat
  /\ idp_to_users (snd out2) = idp_to_users (snd out1).
Proof.
  intros out1 out2.
  assert (Hle : (count_sub (composite_sub "google" "s1")
                   (idp_to_users empty_db) <= 1)%nat)
    by (vm_compute; lia).
  destruct (map_user_idp_info_twice_one_row constrained alice "s1" "google"
              empty_db None eq_refl Hle) as (Hone & Hsame & _).
  split; [reflexivity|]. split; [exact Hle|]. split; [exact Hone|exact Hsame].
Defined.

End Witnesses.

(** ** Runs of the handlers on the example deployment *)

Section Runs.
Import Example.

Example lower_google : lower "Google" = "google".
Proof. reflexivity. Qed.

Example legacy_key_google : "MOCK_" +:+ upper "Google" +:+ "_AUTH" = "MOCK_GOOGLE_AUTH".
Proof. reflexivity. Qed.

(** The development cookie wins over the configured default. *)
Example cookie_takes_precedence :
  fst (@DefaultOAuth2Login_get (env (cfg true (Some "a@x.com") false))
         google_login
         (request [] {[ "dev_login" := "b@x.com" ]}
            "https://fence.example/login/google") start)
  = inr (Jsonify [("username", PyStr "b@x.com")]).
Proof. vm_compute. reflexivity. Qed.

(** Without mock mode the caller is sent to the provider, and a trusted
    redirect is saved on the way. *)
Example real_login_redirects_to_idp :
  let out := @DefaultOAuth2Login_get (env (cfg false None false)) google_login
               (request [("redirect", "https://app.example/next")] ∅
                  "https://fence.example/login/google?redirect=https://app.example/next")
               start in
  fst out = inr (Redirect "https://accounts.example/o/oauth2/auth")
  /\ session (ctx (snd out)) !! "redirect" = Some "https://app.example/next"
  /\ trace (snd out)
     = [EvValidateRedirect (Some "https://app.example/next");
        EvSessionSet "redirect" "https://app.example/next"; EvGetAuthUrl].
Proof. vm_compute. repeat split; reflexivity. Qed.

(** An untrusted redirect is refused and nothing is saved. *)
Example untrusted_redirect_refused :
  @DefaultOAuth2Login_get (env (cfg true (Some "a@x.com") false)) google_login
    (request [("redirect", "https://evil.example/")] ∅
       "https://fence.example/login/google?redirect=https://evil.example/")
    start
  = (inl InvalidRedirect,
     {| ctx := empty_ctx;
        trace := [EvValidateRedirect (Some "https://evil.example/")] |}).
Proof. vm_compute. reflexivity. Qed.

(** Registration on, a user without registration metadata, a redirect
    saved: the answer is the registration endpoint. *)
Example registration_before_saved_redirect :
  fst (@DefaultOAuth2Callback_get (env (cfg false None true))
         (google_callback "email" "email")
         (request [("code", "good")] ∅
            "https://fence.example/login/google/callback?code=good")
         (start_with_redirect "https://app.example/next"))
  = inr (Redirect "https://fence.example/user/register").
Proof. vm_compute. reflexivity. Qed.

(** The spec's success example: the payload's email is the username. *)
Example callback_logs_in_email :
  fst (@DefaultOAuth2Callback_get (env (cfg false None false))
         (google_callback "email" "email")
         (request [("code", "good")] ∅
            "https://fence.example/login/google/callback?code=good") start)
  = inr (Jsonify [("username", PyStr "u@x.com")]).
Proof. vm_compute. reflexivity. Qed.

(** An error parameter with an empty value is no error marker: the handler
    goes on to the exchange. *)
Example empty_error_is_success_branch :
  trace (snd (@DefaultOAuth2Callback_get (env (cfg false None false))
                (google_callback "email" "email")
                (request [("error", ""); ("code", "good")] ∅
                   "https://fence.example/login/google/callback?error=&code=good")
                start))
  = [EvGetUserId (Some "good");
     EvLoginUser (PyStr "u@x.com") "Google" (PyStr "u@x.com")].
Proof. vm_compute. reflexivity. Qed.

(** A [redirect_uri] given twice: the last one is the target; one with a
    query of its own is cut at the question mark. *)
Example error_target_last_and_cut :
  @error_redirect_location (env (cfg false None false))
    (request [("error", "e")] ∅ "https://fence.example/cb?error=e")
    (set_session "redirect"
       "https://app.example/cb?redirect_uri=https%3A%2F%2Fa.example%2F&redirect_uri=https%3A%2F%2Fb.example%2Fp%3Fx%3D1"
       empty_ctx)
  = "https://b.example/p?redirect_uri=https%3A%2F%2Fa.example%2F&redirect_uri=https%3A%2F%2Fb.example%2Fp%3Fx%3D1&error=e".
Proof. vm_compute. reflexivity. Qed.

(** Without a saved redirect the base URL is the original redirect. *)
Example error_without_saved_redirect :
  @error_redirect_location (env (cfg false None false))
    (request [("error", "e")] ∅ "https://fence.example/cb?error=e&state=1")
    empty_ctx
  = "https://fence.example/user?error=e&state=1".
Proof. vm_compute. reflexivity. Qed.

(** On a store that constrains [sub], the second mapping of the same
    subject raises and the first row stays alone. *)
Example second_mapping_conflicts :
  let out1 := map_user_idp_info constrained alice "s1" "google" empty_db None in
  let out2 := map_user_idp_info constrained alice "s1" "google" (snd out1) None in
  fst out1 = Committed /\ fst out2 = IntegrityError
  /\ count_sub "google_s1" (idp_to_users (snd out2)) = 1%nat
  /\ List.length (providers (snd out2)) = 1%nat.
Proof. vm_compute. repeat split; reflexivity. Qed.

End Runs.

(** * Further properties of the handlers *)

Section HandlerProperties.
Context `{E : Env}.

Lemma ctx_after_redirect_session (r : option string) (c : Ctx) :
  session (ctx_after_redirect r c)
  = match r with
    | Some v => if String.eqb v "" then session c
                else <["redirect" := v]> (session c)
    | None => session c
    end.
Proof.
  unfold ctx_after_redirect. destruct r as [v|]; [|reflexivity].
  destruct (String.eqb v ""); reflexivity.
Qed.

Lemma ctx_after_redirect_user (r : option string) (c : Ctx) :
  g_user (ctx_after_redirect r c) = g_user c
  /\ g_audit_data (ctx_after_redirect r c) = g_audit_data c.
Proof.
  unfold ctx_after_redirect. destruct r as [v|]; [|split; reflexivity].
  destruct (String.eqb v ""); split; reflexivity.
Qed.

(** The branch that goes to the provider. *)
Lemma login_get_no_mock (self : DefaultOAuth2Login) (rq : Request) (s : State) :
  let r := args_get "redirect" (args rq) in
  mock_enabled (login_idp_name self) = false ->
  validate_redirect r = true ->
  DefaultOAuth2Login_get self rq s
  = (match get_auth_url (login_client self) with
     | Some u => inr (Redirect u)
     | None => inl ClientError
     end,
     {| ctx := ctx_after_redirect r (ctx s);
        trace := trace s ++ EvValidateRedirect r :: redirect_writes r
                 ++ [EvGetAuthUrl] |}).
Proof.
  intros r Hm Hv.
  pose proof (login_get_valid self rq s) as Hg. simpl in Hg. fold r in Hg.
  rewrite (Hg Hv), Hm. unfold call_get_auth_url. run.
  destruct (get_auth_url (login_client self)); simpl;
    rewrite <- app_assoc; reflexivity.
Qed.

Lemma spec_login_response_saved (u : User) (c : Ctx) (username : pyval)
    (r : string) :
  truthy (REGISTER_USERS_ON config)
  && negb (truthy (dict_get (additional_info u) "registration_info")) = false ->
  session c !! "redirect" = Some r ->
  r <> "" ->
  spec_login_response u c username = Redirect r.
Proof.
  intros Hn Hr Hne. unfold spec_login_response. rewrite Hn, Hr.
  destruct (String.eqb_spec r ""); [contradiction|reflexivity].
Qed.

(** X1. Without mock mode, a request whose redirect is accepted is answered
    with a redirect to the client's authorization URL (or the client's
    error), [login_user] is not called, the user and the audit record in
    [flask.g] stay as they were, and of the session only [redirect] may
    change: it becomes the request's redirect when that is non-empty and
    keeps its old value otherwise. *)
Theorem login_without_mock (self : DefaultOAuth2Login) (rq : Request)
    (s : State) :
  let r := args_get "redirect" (args rq) in
  let out := DefaultOAuth2Login_get self rq s in
  mock_enabled (login_idp_name self) = false ->
  validate_redirect r = true ->
  fst out = match get_auth_url (login_client self) with
            | Some u => inr (Redirect u)
            | None => inl ClientError
            end
  /\ trace (snd out)
     = trace s ++ EvValidateRedirect r :: redirect_writes r ++ [EvGetAuthUrl]
  /\ g_user (ctx (snd out)) = g_user (ctx s)
  /\ g_audit_data (ctx (snd out)) = g_audit_data (ctx s)
  /\ (forall k, k <> "redirect" ->
        session (ctx (snd out)) !! k = session (ctx s) !! k)
  /\ session (ctx (snd out)) !! "redirect"
     = (if truthy_str r then r else session (ctx s) !! "redirect").
Proof.
  intros r out Hm Hv. unfold out.
  rewrite (login_get_no_mock self rq s Hm Hv). fold r. simpl.
  destruct (ctx_after_redirect_user r (ctx s)) as [Hu Ha].
  split; [reflexivity|]. split; [reflexivity|].
  split; [exact Hu|]. split; [exact Ha|].
  rewrite ctx_after_redirect_session. unfold truthy_str.
  destruct r as [v|]; [|split; reflexivity].
  destruct (String.eqb v ""); simpl; [split; reflexivity|]. split.
  - intros k Hk. apply lookup_insert_ne. congruence.
  - apply lookup_insert_eq.
Qed.

(** X2. A mock login whose [login_user] raises fails with that error after
    the redirect has been saved: the session keeps the request's redirect,
    no audit record is built, and the client is not called. *)
Theorem mock_login_failure_keeps_redirect (self : DefaultOAuth2Login)
    (rq : Request) (s : State) :
  let r := args_get "redirect" (args rq) in
  let idp := login_idp_name self in
  let username := mock_username idp rq in
  mock_enabled idp = true ->
  validate_redirect r = true ->
  login_user username idp PyNone (ctx_after_redirect r (ctx s)) = None ->
  DefaultOAuth2Login_get self rq s
  = (inl LoginUserError,
     {| ctx := ctx_after_redirect r (ctx s);
        trace := trace s ++ EvValidateRedirect r :: redirect_writes r
                 ++ [EvLoginUser username idp PyNone] |}).
Proof.
  intros r idp username Hm Hv Hl.
  pose proof (login_get_valid self rq s) as Hg. simpl in Hg.
  fold r in Hg. fold idp in Hg. rewrite (Hg Hv), Hm. fold username.
  unfold _login, call_login_user. run. rewrite Hl. simpl.
  rewrite <- app_assoc. reflexivity.
Qed.

(** X3. A mock login on a request that brings its own redirect answers with
    a redirect to that very URL, when no registration is pending and
    [login_user] leaves the saved redirect in the session. *)
Theorem mock_login_uses_fresh_redirect (self : DefaultOAuth2Login)
    (rq : Request) (s : State) (r : string) (c2 : Ctx) (u : User) :
  let idp := login_idp_name self in
  let username := mock_username idp rq in
  mock_enabled idp = true ->
  args_get "redirect" (args rq) = Some r ->
  r <> "" ->
  validate_redirect (Some r) = true ->
  login_user username idp PyNone (ctx_after_redirect (Some r) (ctx s))
    = Some c2 ->
  g_user c2 = Some u ->
  session c2 !! "redirect" = Some r ->
  truthy (REGISTER_USERS_ON config)
  && negb (truthy (dict_get (additional_info u) "registration_info")) = false ->
  fst (DefaultOAuth2Login_get self rq s) = inr (Redirect r).
Proof.
  intros idp username Hm Hr Hne Hv Hl Hu Hs Hn.
  pose proof (login_get_valid self rq s) as Hg. simpl in Hg.
  rewrite Hr in Hg. fold idp in Hg. rewrite (Hg Hv), Hm. fold username.
  rewrite (mock_tail_result idp username _ _ c2 u Hl Hu). simpl.
  f_equal. apply spec_login_response_saved; assumption.
Qed.

(** X4. Everything [DefaultOAuth2Callback.get] calls, in order: nothing on
    the error branch; otherwise the code exchange, once, with the request's
    [code]; and [login_user], once, only after the exchange returned a
    payload with a truthy username, with that username and the payload's
    email field. *)
Theorem callback_get_trace (self : DefaultOAuth2Callback) (rq : Request)
    (s : State) :
  let code := args_get "code" (args rq) in
  trace (snd (DefaultOAuth2Callback_get self rq s))
  = trace s ++
    (if truthy_str (args_get "error" (args rq)) then []
     else EvGetUserId code ::
          match get_user_id (cb_client self) code with
          | Some result =>
              if truthy (dict_get result (username_field self))
              then [EvLoginUser (dict_get result (username_field self))
                      (cb_idp_name self)
                      (dict_get result (email_field self))]
              else []
          | None => []
          end).
Proof.
  intros code.
  destruct (truthy_str (args_get "error" (args rq))) eqn:He.
  - unfold DefaultOAuth2Callback_get. rewrite He. run.
    symmetry. apply app_nil_r.
  - destruct (get_user_id (cb_client self) code) as [result|] eqn:Hr.
    + rewrite (callback_get_success self rq s result He Hr). fold code.
      destruct (truthy (dict_get result (username_field self))).
      * rewrite callback_tail_trace. simpl. rewrite <- app_assoc. reflexivity.
      * reflexivity.
    + unfold DefaultOAuth2Callback_get, call_get_user_id. rewrite He.
      fold code. run. rewrite Hr. reflexivity.
Qed.

(** X5. A callback whose exchange returns a truthy username, and whose
    [login_user] finds the user, returns the login's response and leaves
    the audit record of that user in [flask.g]: the stored user's username
    and id, the provider's name, and the three session markers. *)
Theorem callback_success_completes (self : DefaultOAuth2Callback)
    (rq : Request) (s : State) (result : gmap string pyval) (c2 : Ctx)
    (u : User) :
  let code := args_get "code" (args rq) in
  let idp := cb_idp_name self in
  let username := dict_get result (username_field self) in
  let email := dict_get result (email_field self) in
  truthy_str (args_get "error" (args rq)) = false ->
  get_user_id (cb_client self) code = Some result ->
  truthy username = true ->
  login_user username idp email (ctx s) = Some c2 ->
  g_user c2 = Some u ->
  DefaultOAuth2Callback_get self rq s
  = (inr (spec_login_response u c2 username),
     {| ctx := {| session := session c2; g_user := Some u;
                  g_audit_data :=
                    Some {| audit_username := user_username u;
                            audit_sub := user_id u;
                            audit_idp := idp;
                            audit_fence_idp := session c2 !! "fence_idp";
                            audit_shib_idp := session c2 !! "shib_idp";
                            audit_client_id := session c2 !! "client_id" |};
                  flask_redirect_url := flask_redirect_url c2 |};
        trace := trace s ++ [EvGetUserId code;
                             EvLoginUser username idp email] |}).
Proof.
  intros code idp username email He Hr Hu Hl Hg.
  rewrite (callback_get_success self rq s result He Hr). fold code.
  fold username. rewrite Hu. fold email.
  rewrite (callback_tail_result self result username email _ _ c2 u Hl Hg).
  unfold set_audit_data, audit_of. rewrite Hg, <- app_assoc. reflexivity.
Qed.

End HandlerProperties.

Section RoundTrips.
Context `{E : Env}.

Lemma before_question_cut (t q : string) :
  before_question (before_question t +:+ "?" +:+ q) = before_question t.
Proof.
  induction t as [|c t IH]; simpl; [reflexivity|].
  destruct (Ascii.eqb c "?") eqn:Hc; simpl.
  - reflexivity.
  - rewrite Hc, IH. reflexivity.
Qed.


(** X6. Up to its first question mark, the location of the error redirect
    is the target up to its first question mark: where the caller is sent
    is decided by the saved redirect (or the base URL) alone, and nothing
    the identity provider put in the callback's query can move it. *)
Theorem error_redirect_goes_to_target (rq : Request) (c : Ctx) :
  before_question (error_redirect_location rq c)
  = before_question (spec_error_target c).
Proof.
  rewrite error_redirect_location_spec. apply before_question_cut.
Qed.


(** X8. Login, then a successful callback.  After a login request without
    mock mode that brought an accepted, non-empty redirect, a callback whose
    exchange yields a username, and whose [login_user] finds the user and
    leaves the saved redirect in the session, is answered with a redirect to
    the URL the login request brought, when no registration is pending. *)
Theorem login_then_success_callback (self : DefaultOAuth2Login)
    (cb : DefaultOAuth2Callback) (rq1 rq2 : Request) (s : State)
    (r : string) (result : gmap string pyval) (c2 : Ctx) (u : User) :
  let s1 := snd (DefaultOAuth2Login_get self rq1 s) in
  let username := dict_get result (username_field cb) in
  let email := dict_get result (email_field cb) in
  mock_enabled (login_idp_name self) = false ->
  args_get "redirect" (args rq1) = Some r ->
  r <> "" ->
  validate_redirect (Some r) = true ->
  truthy_str (args_get "error" (args rq2)) = false ->
  get_user_id (cb_client cb) (args_get "code" (args rq2)) = Some result ->
  truthy username = true ->
  login_user username (cb_idp_name cb) email (ctx s1) = Some c2 ->
  g_user c2 = Some u ->
  session c2 !! "redirect" = session (ctx s1) !! "redirect" ->
  truthy (REGISTER_USERS_ON config)
  && negb (truthy (dict_get (additional_info u) "registration_info")) = false ->
  fst (DefaultOAuth2Callback_get cb rq2 s1) = inr (Redirect r).
Proof.
  intros s1 username email Hm Hr Hne Hv He Hx Hu Hl Hg Hkeep Hn.
  assert (Hs : session (ctx s1) !! "redirect" = Some r).
  { unfold s1. pose proof (login_get_no_mock self rq1 s Hm) as Hq.
    simpl in Hq. rewrite Hr in Hq. rewrite (Hq Hv). cbn [snd ctx].
    rewrite ctx_after_redirect_session.
    destruct (String.eqb_spec r ""); [contradiction|].
    apply lookup_insert_eq. }
  rewrite (callback_get_success cb rq2 s1 result He Hx).
  fold username. rewrite Hu. fold email.
  destruct s1 as [c1 t1]. simpl in *.
  rewrite (callback_tail_result cb result username email c1 _ c2 u Hl Hg).
  simpl. f_equal. apply spec_login_response_saved; [exact Hn| |exact Hne].
  rewrite Hkeep. exact Hs.
Qed.

Lemma upper_lower_ascii (c : ascii) :
  upper_ascii (lower_ascii c) = upper_ascii c.
Proof.
  destruct c as [b0 b1 b2 b3 b4 b5 b6 b7].
  destruct b0, b1, b2, b3, b4, b5, b6, b7; reflexivity.
Qed.

Lemma upper_lower (s : string) : upper (lower s) = upper s.
Proof.
  induction s as [|c s IH]; simpl; [reflexivity|].
  rewrite upper_lower_ascii, IH. reflexivity.
Qed.

(** X9. Provider names that differ only in the case of their ASCII letters
    read the same mock configuration: the same provider block, the same
    legacy key, hence the same decision and the same default user. *)
Theorem mock_configuration_ignores_case (a b : string) :
  lower a = lower b ->
  mock_enabled a = mock_enabled b
  /\ mock_default_user a = mock_default_user b.
Proof.
  intros Hl.
  assert (Hu : upper a = upper b).
  { rewrite <- (upper_lower a), <- (upper_lower b), Hl. reflexivity. }
  unfold mock_enabled, mock_login, legacy_mock_login, mock_default_user,
    provider_config.
  rewrite Hl, Hu. split; reflexivity.
Qed.

(** X10. The mock flag is read for its truth value, not compared with
    [True]: a provider block whose [mock] entry is any non-empty text, the
    text [false] included, turns mock mode on. *)
Theorem text_flag_enables_mock (idp_name : string)
    (block : gmap string pyval) (v : string) :
  OPENID_CONNECT config !! lower idp_name = Some block ->
  block !! "mock" = Some (PyStr v) ->
  v <> "" ->
  mock_enabled idp_name = true.
Proof.
  intros Hb Hm Hv.
  unfold mock_enabled, mock_login, provider_config, dict_get_default.
  rewrite Hb, Hm. simpl.
  destruct (String.eqb_spec v ""); [contradiction|reflexivity].
Qed.

End RoundTrips.

Section StoreProperties.

Lemma append_assoc (a b c : string) : (a +:+ b) +:+ c = a +:+ (b +:+ c).
Proof.
  induction a as [|x a IH]; [reflexivity|].
  change (String x ((a +:+ b) +:+ c) = String x (a +:+ (b +:+ c))).
  f_equal. exact IH.
Qed.

Lemma append_inj_l (p a b : string) : p +:+ a = p +:+ b -> a = b.
Proof.
  induction p as [|x p IH]; intros H; [exact H|].
  change (String x (p +:+ a) = String x (p +:+ b)) in H.
  inversion H. auto.
Qed.

Lemma composite_sub_inj_subject (provider s s' : string) :
  composite_sub provider s = composite_sub provider s' -> s = s'.
Proof.
  unfold composite_sub. intros H.
  apply append_inj_l in H. apply (append_inj_l "_") in H. exact H.
Qed.

Lemma first_provider_In provider l p :
  first_provider provider l = Some p -> In p l /\ idp_name p = provider.
Proof.
  induction l as [|q l IH]; simpl; [discriminate|].
  destruct (String.eqb_spec (idp_name q) provider) as [Heq|Hne].
  - intros H. inversion H; subst. auto.
  - intros H. destruct (IH H). auto.
Qed.

Lemma first_provider_not_In provider l :
  first_provider provider l = None -> ~ In provider (List.map idp_name l).
Proof.
  induction l as [|q l IH]; simpl; [tauto|].
  destruct (String.eqb_spec (idp_name q) provider) as [Heq|Hne];
    [discriminate|].
  intros H [Hq|Hin]; [contradiction|]. exact (IH H Hin).
Qed.

Lemma NoDup_snoc {A} (l : list A) (x : A) :
  List.NoDup l -> ~ In x l -> List.NoDup (l ++ [x]).
Proof.
  induction l as [|y l IH]; simpl; intros Hn Hx.
  - constructor; [tauto|constructor].
  - apply List.NoDup_cons_iff in Hn. destruct Hn as [Hy Hn].
    apply List.NoDup_cons_iff. split.
    + rewrite List.in_app_iff. simpl. intros [Hin|[Heq|[]]]; [tauto|].
      subst. tauto.
    + apply IH; tauto.
Qed.

(** What one call does to the provider table and to the id sequence. *)
Lemma map_user_idp_info_providers sc user idp_sub provider db extra :
  let out := map_user_idp_info sc user idp_sub provider db extra in
  (exists idp, first_provider provider (providers (snd out)) = Some idp)
  /\ match first_provider provider (providers db) with
     | Some _ => providers (snd out) = providers db
                 /\ next_idp_id (snd out) = next_idp_id db
     | None =>
         providers (snd out)
         = providers db ++
           [{| idp_id := next_idp_id db; idp_name := provider;
               idp_description := Some "IdP from foreign Passport" |}]
         /\ next_idp_id (snd out) = next_idp_id db + 1
     end.
Proof.
  intros out. unfold out, map_user_idp_info, get_or_create_provider,
    add_provider, add_idp_to_user.
  destruct (first_provider provider (providers db)) as [idp|] eqn:Hf.
  - destruct (sub_unique sc && has_sub _ (idp_to_users db)); simpl;
      (split; [exists idp; exact Hf|split; reflexivity]).
  - rewrite (first_provider_none _ _ Hf), andb_false_r. simpl.
    destruct (sub_unique sc && has_sub _ (idp_to_users db)); simpl;
      (split; [|split; reflexivity]);
      eexists; apply first_provider_app_new; [exact Hf|reflexivity
                                             |exact Hf|reflexivity].
Qed.

Lemma count_sub_other key row :
  sub row <> key -> count_sub key [row] = 0%nat.
Proof.
  intros Hne. unfold count_sub. simpl.
  destruct (String.eqb_spec (sub row) key); [contradiction|reflexivity].
Qed.

(** X11. The mapping only ever appends: the providers and the bindings the
    store held are still there, in place and unchanged, followed by at most
    one new provider and at most one new binding, and the id sequence has
    advanced by the number of providers added. *)
Theorem map_user_idp_info_append_only (sc : Schema) (user : User)
    (idp_sub provider : string) (db : Db)
    (extra : option (gmap string pyval)) :
  let out := map_user_idp_info sc user idp_sub provider db extra in
  exists ps bs,
    providers (snd out) = providers db ++ ps
    /\ idp_to_users (snd out) = idp_to_users db ++ bs
    /\ (List.length ps <= 1)%nat /\ (List.length bs <= 1)%nat
    /\ next_idp_id (snd out) = next_idp_id db + Z.of_nat (List.length ps).
Proof.
  intros out.
  pose proof (map_user_idp_info_providers sc user idp_sub provider db extra)
    as [_ Hp].
  pose proof (map_user_idp_info_step sc user idp_sub provider db extra) as Hs.
  simpl in Hp, Hs. fold out in Hp, Hs.
  assert (Hb : exists bs, idp_to_users (snd out) = idp_to_users db ++ bs
                          /\ (List.length bs <= 1)%nat).
  { destruct (sub_unique sc && has_sub _ (idp_to_users db)).
    - exists []. destruct Hs as [_ ->]. rewrite app_nil_r. auto.
    - destruct Hs as [_ (idp & _ & ->)]. eexists. split; [reflexivity|].
      simpl. lia. }
  destruct Hb as (bs & Hbs & Hlen).
  destruct (first_provider provider (providers db)).
  - exists [], bs. destruct Hp as [-> ->]. rewrite app_nil_r. simpl.
    repeat split; auto; lia.
  - eexists _, bs. destruct Hp as [-> ->]. simpl.
    repeat split; auto; lia.
Qed.

(** X12. A provider table without two rows of the same name stays so
    through the mapping, whether or not the store enforces it: the mapping
    adds a provider row only under a name no row has. *)
Theorem provider_names_stay_unique (sc : Schema) (user : User)
    (idp_sub provider : string) (db : Db)
    (extra : option (gmap string pyval)) :
  List.NoDup (List.map idp_name (providers db)) ->
  List.NoDup (List.map idp_name
    (providers (snd (map_user_idp_info sc user idp_sub provider db extra)))).
Proof.
  intros Hn.
  pose proof (map_user_idp_info_providers sc user idp_sub provider db extra)
    as [_ Hp]. simpl in Hp.
  destruct (first_provider provider (providers db)) eqn:Hf.
  - destruct Hp as [-> _]. exact Hn.
  - destruct Hp as [-> _]. rewrite List.map_app. simpl.
    apply NoDup_snoc; [exact Hn|]. apply first_provider_not_In. exact Hf.
Qed.

(** X13. Referential integrity is kept: when every binding of the store
    points to the id of a provider row of the store, the same holds after
    the mapping; the binding it adds points to a row named after the
    provider it was called with. *)
Theorem bindings_point_to_providers (sc : Schema) (user : User)
    (idp_sub provider : string) (db : Db)
    (extra : option (gmap string pyval)) :
  let out := map_user_idp_info sc user idp_sub provider db extra in
  (forall b, In b (idp_to_users db) ->
     exists p, In p (providers db) /\ idp_id p = fk_to_idp b) ->
  forall b, In b (idp_to_users (snd out)) ->
    exists p, In p (providers (snd out)) /\ idp_id p = fk_to_idp b.
Proof.
  intros out Hinv b Hb.
  pose proof (map_user_idp_info_providers sc user idp_sub provider db extra)
    as [_ Hp].
  pose proof (map_user_idp_info_step sc user idp_sub provider db extra) as Hs.
  simpl in Hp, Hs. fold out in Hp, Hs.
  assert (Hgrow : forall p, In p (providers db) -> In p (providers (snd out))).
  { intros p Hin. destruct (first_provider provider (providers db)).
    - destruct Hp as [-> _]. exact Hin.
    - destruct Hp as [-> _]. apply List.in_or_app. auto. }
  assert (Hold : In b (idp_to_users db) ->
                 exists p, In p (providers (snd out)) /\ idp_id p = fk_to_idp b).
  { intros Hin. destruct (Hinv b Hin) as (p & Hpin & Hid). eauto. }
  destruct (sub_unique sc && has_sub _ (idp_to_users db)).
  - destruct Hs as [_ Hrows]. rewrite Hrows in Hb. auto.
  - destruct Hs as [_ (idp & Hfirst & Hrows)]. rewrite Hrows in Hb.
    apply List.in_app_or in Hb. destruct Hb as [Hb|[Hb|[]]]; [auto|].
    subst b. exists idp. split; [|reflexivity].
    apply (first_provider_In provider). exact Hfirst.
Qed.

(** X14. Creating the provider is idempotent: once the mapping has run for
    a provider, running it again for that provider, for whatever user and
    subject and whatever its outcome, adds no provider row. *)
Theorem provider_created_once (sc : Schema) (user user' : User)
    (idp_sub idp_sub' provider : string) (db : Db)
    (extra extra' : option (gmap string pyval)) :
  let out1 := map_user_idp_info sc user idp_sub provider db extra in
  let out2 := map_user_idp_info sc user' idp_sub' provider (snd out1) extra' in
  providers (snd out2) = providers (snd out1)
  /\ next_idp_id (snd out2) = next_idp_id (snd out1).
Proof.
  intros out1 out2.
  pose proof (map_user_idp_info_providers sc user idp_sub provider db extra)
    as [(idp & Hfirst) _].
  pose proof (map_user_idp_info_providers sc user' idp_sub' provider
                (snd out1) extra') as [_ Hp].
  simpl in Hfirst, Hp. fold out1 in Hfirst, Hp. fold out2 in Hp.
  rewrite Hfirst in Hp. exact Hp.
Qed.

(** X15. The composite key is ambiguous: provider [p_x] with subject [y]
    and provider [p] with subject [x_y] get the same [sub].  On a store that
    constrains [sub], once the first is bound the second cannot be; on a
    store that does not, the two identities share their key. *)
Theorem composite_key_collision (sc : Schema) (u1 u2 : User)
    (p x y : string) (db : Db) (e1 e2 : option (gmap string pyval)) :
  let key := composite_sub p (x +:+ "_" +:+ y) in
  let out1 := map_user_idp_info sc u1 y (p +:+ "_" +:+ x) db e1 in
  let out2 := map_user_idp_info sc u2 (x +:+ "_" +:+ y) p (snd out1) e2 in
  composite_sub (p +:+ "_" +:+ x) y = key
  /\ (sub_unique sc = true -> fst out2 = IntegrityError)
  /\ (sub_unique sc = false ->
      count_sub key (idp_to_users (snd out2))
      = S (S (count_sub key (idp_to_users db)))).
Proof.
  intros key out1 out2.
  assert (Hk : composite_sub (p +:+ "_" +:+ x) y = key).
  { unfold key, composite_sub. rewrite !append_assoc. reflexivity. }
  split; [exact Hk|].
  pose proof (map_user_idp_info_step sc u1 y (p +:+ "_" +:+ x) db e1) as H1.
  pose proof (map_user_idp_info_step sc u2 (x +:+ "_" +:+ y) p (snd out1) e2)
    as H2.
  simpl in H1, H2. rewrite Hk in H1. fold key in H2. fold out1 in H1, H2.
  fold out2 in H2.
  destruct (sub_unique sc); simpl in H1, H2; split; try discriminate.
  - intros _. destruct (has_sub key (idp_to_users db)) eqn:Hhas.
    + destruct H1 as [_ Hr1]. rewrite Hr1, Hhas in H2. apply H2.
    + destruct H1 as [_ (idp & _ & Hr1)].
      rewrite Hr1, has_sub_app, has_sub_self, orb_true_r in H2. apply H2.
  - intros _. destruct H1 as [_ (idp1 & _ & Hr1)].
    destruct H2 as [_ (idp2 & _ & Hr2)].
    rewrite Hr2, Hr1, !count_sub_app, !count_sub_self. lia.
Qed.

(** X16. Under one provider, mapping a subject leaves the bindings of every
    other subject alone: their number under their own key does not change. *)
Theorem other_subjects_untouched (sc : Schema) (user : User)
    (s s' provider : string) (db : Db)
    (extra : option (gmap string pyval)) :
  s <> s' ->
  count_sub (composite_sub provider s)
    (idp_to_users (snd (map_user_idp_info sc user s' provider db extra)))
  = count_sub (composite_sub provider s) (idp_to_users db).
Proof.
  intros Hne.
  pose proof (map_user_idp_info_step sc user s' provider db extra) as Hs.
  simpl in Hs.
  destruct (sub_unique sc && has_sub _ (idp_to_users db)).
  - destruct Hs as [_ ->]. reflexivity.
  - destruct Hs as [_ (idp & _ & ->)].
    rewrite count_sub_app, count_sub_other; [lia|]. simpl.
    intros Heq. apply Hne. symmetry.
    exact (composite_sub_inj_subject provider s' s Heq).
Qed.

End StoreProperties.

(** ** These properties at work on the example deployment *)

Section FurtherWitnesses.
Import Example.

Lemma login_without_mock_witness :
  let rq := request [("redirect", "https://app.example/next")] ∅
              "https://fence.example/login/google?redirect=https://app.example/next" in
  let out := @DefaultOAuth2Login_get (env (cfg false None false))
               google_login rq start in
  @mock_enabled (env (cfg false None false)) "Google" = false
  /\ allow (Some "https://app.example/next") = true
  /\ fst out = inr (Redirect "https://accounts.example/o/oauth2/auth")
  /\ session (ctx (snd out)) !! "redirect" = Some "https://app.example/next".
Proof.
  intros rq out.
  assert (Hm : @mock_enabled (env (cfg false None false)) "Google" = false)
    by (vm_compute; reflexivity).
  destruct (@login_without_mock (env (cfg false None false)) google_login rq
              start Hm eq_refl) as (Hresp & _ & _ & _ & _ & Hsaved).
  split; [exact Hm|]. split; [reflexivity|]. split; [exact Hresp|].
  exact Hsaved.
Defined.

Lemma mock_login_failure_keeps_redirect_witness :
  let rq := request [("redirect", "https://app.example/next")] ∅
              "https://fence.example/login/google?redirect=https://app.example/next" in
  let out := @DefaultOAuth2Login_get (env_no_user (cfg true None false))
               google_login rq start in
  @mock_enabled (env_no_user (cfg true None false)) "Google" = true
  /\ fst out = inl LoginUserError
  /\ session (ctx (snd out)) !! "redirect" = Some "https://app.example/next"
  /\ g_audit_data (ctx (snd out)) = None.
Proof.
  intros rq out.
  assert (Hm : @mock_enabled (env_no_user (cfg true None false)) "Google"
               = true) by (vm_compute; reflexivity).
  split; [exact Hm|]. unfold out.
  rewrite (@mock_login_failure_keeps_redirect
             (env_no_user (cfg true None false)) google_login rq start
             Hm eq_refl eq_refl).
  vm_compute. repeat split; reflexivity.
Defined.

Lemma mock_login_uses_fresh_redirect_witness :
  let rq := request [("redirect", "https://app.example/next")] ∅
              "https://fence.example/login/google?redirect=https://app.example/next" in
  @mock_enabled (env (cfg true (Some "a@x.com") false)) "Google" = true
  /\ allow (Some "https://app.example/next") = true
  /\ fst (@DefaultOAuth2Login_get (env (cfg true (Some "a@x.com") false))
            google_login rq start)
     = inr (Redirect "https://app.example/next").
Proof.
  intros rq.
  assert (Hm : @mock_enabled (env (cfg true (Some "a@x.com") false)) "Google"
               = true) by (vm_compute; reflexivity).
  split; [exact Hm|]. split; [reflexivity|].
  eapply (@mock_login_uses_fresh_redirect
            (env (cfg true (Some "a@x.com") false)) google_login rq start
            "https://app.example/next" _ _ Hm eq_refl).
  - discriminate.
  - reflexivity.
  - reflexivity.
  - reflexivity.
  - vm_compute. reflexivity.
  - reflexivity.
Defined.

Lemma callback_success_completes_witness :
  let rq := request [("code", "good")] ∅
              "https://fence.example/login/google/callback?code=good" in
  let out := @DefaultOAuth2Callback_get (env (cfg false None false))
               (google_callback "email" "email") rq start in
  truthy_str (args_get "error" (args rq)) = false
  /\ get_user_id google_client (Some "good")
     = Some {[ "email" := PyStr "u@x.com" ]}
  /\ fst out = inr (Jsonify [("username", PyStr "u@x.com")])
  /\ g_audit_data (ctx (snd out))
     = Some {| audit_username := PyStr "u@x.com"; audit_sub := 7;
               audit_idp := "Google"; audit_fence_idp := None;
               audit_shib_idp := None; audit_client_id := None |}.
Proof.
  intros rq out. split; [reflexivity|]. split; [reflexivity|]. unfold out.
  assert (Hu : truthy (dict_get ({[ "email" := PyStr "u@x.com" ]}
                                   : gmap string pyval) "email") = true)
    by (vm_compute; reflexivity).
  rewrite (@callback_success_completes (env (cfg false None false))
             (google_callback "email" "email") rq start
             {[ "email" := PyStr "u@x.com" ]} (ctx_after_login empty_ctx)
             {| user_username := PyStr "u@x.com"; user_id := 7;
                additional_info := ∅ |}
             eq_refl eq_refl Hu eq_refl eq_refl).
  vm_compute. split; reflexivity.
Defined.


Lemma login_then_success_callback_witness :
  let r := "https://app.example/next" in
  let rq1 := request [("redirect", r)] ∅ "https://fence.example/login/google" in
  let rq2 := request [("code", "good")] ∅
               "https://fence.example/login/google/callback?code=good" in
  let s1 := snd (@DefaultOAuth2Login_get (env (cfg false None false))
                   google_login rq1 start) in
  @mock_enabled (env (cfg false None false)) "Google" = false
  /\ allow (Some r) = true
  /\ fst (@DefaultOAuth2Callback_get (env (cfg false None false))
            (google_callback "email" "email") rq2 s1)
     = inr (Redirect r).
Proof.
  intros r rq1 rq2 s1.
  assert (Hm : @mock_enabled (env (cfg false None false)) "Google" = false)
    by (vm_compute; reflexivity).
  split; [exact Hm|]. split; [reflexivity|].
  eapply (@login_then_success_callback (env (cfg false None false))
            google_login (google_callback "email" "email") rq1 rq2 start r
            {[ "email" := PyStr "u@x.com" ]} _ _ Hm eq_refl).
  - discriminate.
  - reflexivity.
  - reflexivity.
  - reflexivity.
  - vm_compute. reflexivity.
  - reflexivity.
  - reflexivity.
  - reflexivity.
  - reflexivity.
Defined.

Lemma mock_configuration_ignores_case_witness :
  lower "Google" = lower "GOOGLE"
  /\ @mock_enabled (env (cfg true None false)) "Google"
     = @mock_enabled (env (cfg true None false)) "GOOGLE".
Proof.
  split; [reflexivity|].
  exact (proj1 (@mock_configuration_ignores_case (env (cfg true None false))
                  "Google" "GOOGLE" eq_refl)).
Defined.

Lemma text_flag_enables_mock_witness :
  OPENID_CONNECT cfg_text_flag !! lower "Google"
  = Some ({[ "mock" := PyStr "false" ]} : gmap string pyval)
  /\ @mock_enabled (env cfg_text_flag) "Google" = true.
Proof.
  assert (Hb : OPENID_CONNECT cfg_text_flag !! lower "Google"
               = Some ({[ "mock" := PyStr "false" ]} : gmap string pyval))
    by (vm_compute; reflexivity).
  split; [exact Hb|].
  apply (@text_flag_enables_mock (env cfg_text_flag) "Google"
           {[ "mock" := PyStr "false" ]} "false" Hb).
  - vm_compute. reflexivity.
  - discriminate.
Defined.

Lemma provider_names_stay_unique_witness :
  List.NoDup (List.map idp_name (providers db_google))
  /\ List.NoDup (List.map idp_name
       (providers (snd (map_user_idp_info constrained alice "s1" "orcid"
                          db_google None)))).
Proof.
  assert (Hn : List.NoDup (List.map idp_name (providers db_google))).
  { simpl. constructor; [simpl; tauto|constructor]. }
  split; [exact Hn|].
  exact (provider_names_stay_unique constrained alice "s1" "orcid" db_google
           None Hn).
Defined.

Lemma bindings_point_to_providers_witness :
  (forall b, In b (idp_to_users db_google) ->
     exists p, In p (providers db_google) /\ idp_id p = fk_to_idp b)
  /\ forall b,
       In b (idp_to_users (snd (map_user_idp_info constrained alice "s1"
                                  "orcid" db_google None))) ->
       exists p,
         In p (providers (snd (map_user_idp_info constrained alice "s1"
                                 "orcid" db_google None)))
         /\ idp_id p = fk_to_idp b.
Proof.
  assert (Hinv : forall b, In b (idp_to_users db_google) ->
            exists p, In p (providers db_google) /\ idp_id p = fk_to_idp b).
  { simpl. intros b [<-|[]]. eexists. split; [left; reflexivity|reflexivity]. }
  split; [exact Hinv|].
  exact (bindings_point_to_providers constrained alice "s1" "orcid" db_google
           None Hinv).
Defined.

Lemma other_subjects_untouched_witness :
  "s0" <> "s1"
  /\ count_sub "google_s0"
       (idp_to_users (snd (map_user_idp_info constrained alice "s1" "google"
                             db_google None)))
     = 1%nat.
Proof.
  assert (Hne : "s0" <> "s1") by discriminate.
  split; [exact Hne|].
  exact (other_subjects_untouched constrained alice "s0" "s1" "google"
           db_google None Hne).
Defined.

End FurtherWitnesses.
